(** * asgard-mcp-server: the bridge core of package [mcp]

    A shallow embedding of [pkg/mcp/api_client.go], [pkg/mcp/server.go] and
    the package's constants / MIME helper, together with the part of Go's
    [encoding/json] decoder that the code relies on, and the properties of
    the specification that were checked against it.

    Layout:
    - [Json]   : JSON texts as Go's decoder reads them (scanner, values,
                 [Unmarshal] into the Go types used by the package);
    - [Mcp]    : the package itself (errors, effects, [DetectMime],
                 [FetchToolsetManifest], [ExecuteToolRequest], the per-tool
                 handler, [registerToolHandlers], [NewServer]);
    - [Stub]   : concrete worlds (stub endpoints, a small file system) on
                 which the definitions are run;
    - the vocabulary of the statements, then the lemmas and theorems.

    Go strings and byte slices are byte sequences; they are [string] here
    (a list of 8-bit [ascii]). *)

From Stdlib Require Import ZArith NArith Ascii String Bool List Lia.
From stdpp Require Import base option strings list gmap fin_maps pretty.

#[local] Set Warnings "-register-all".
#[local] Open Scope string_scope.

(** The double quote character, and a helper to write JSON texts with
    apostrophes in place of double quotes. *)
Definition dquote : ascii := "034"%char.

Fixpoint dq (s : string) : string :=
  match s with
  | EmptyString => EmptyString
  | String c r => String (if Ascii.eqb c "'" then dquote else c) (dq r)
  end.

Definition code (c : ascii) : N := N_of_ascii c.

(** Go's [(T, error)] results. *)
Inductive result (E A : Type) :=
| Ok (a : A)
| Err (e : E).
Arguments Ok {E A} a.
Arguments Err {E A} e.

Definition is_ok {E A} (r : result E A) : bool :=
  match r with Ok _ => true | Err _ => false end.

Definition between (lo hi : N) (c : ascii) : bool :=
  (N.leb lo (code c) && N.leb (code c) hi)%bool.

(* ================================================================== *)
(** * Module [Json]: what [encoding/json] does with a text              *)
(* ================================================================== *)
Module Json.

(** ** Scanner *)

Inductive token :=
| TLBrace | TRBrace | TLBrack | TRBrack | TColon | TComma
| TString (raw : string)      (* text between the quotes, escapes not yet decoded *)
| TNumber (lit : string)
| TTrue | TFalse | TNull.

(** A token with the byte offsets [tstart, tend) it occupies. *)
Record ptoken := PTok { tok : token; tstart : nat; tend : nat }.

Definition isSpace (c : ascii) : bool :=
  match c with
  | " "%char | "009"%char | "010"%char | "013"%char => true
  | _ => false
  end.

Definition isDigit (c : ascii) : bool := between 48 57 c.
Definition isDigit19 (c : ascii) : bool := between 49 57 c.
Definition isHex (c : ascii) : bool :=
  (isDigit c || between 97 102 c || between 65 70 c)%bool.

Definition isSimpleEscape (c : ascii) : bool :=
  match c with
  | "b"%char | "f"%char | "n"%char | "r"%char | "t"%char
  | "\"%char | "/"%char | "034"%char => true
  | _ => false
  end.

(** [scan_string s] : [s] starts just after an opening quote; the result is
    the number of bytes up to and including the closing quote
    (scanner states [stateInString], [stateInStringEsc], [stateInStringEscU*]). *)
Fixpoint scan_string (s : string) : option nat :=
  match s with
  | EmptyString => None
  | String "034"%char _ => Some 1
  | String "\"%char (String "u"%char (String a (String b (String c (String d r))))) =>
      if (isHex a && isHex b && isHex c && isHex d)%bool
      then (fun n => 6 + n) <$> scan_string r else None
  | String "\"%char (String e r) =>
      if isSimpleEscape e then (fun n => 2 + n) <$> scan_string r else None
  | String "\"%char EmptyString => None
  | String c r => if N.ltb (code c) 32 then None else S <$> scan_string r
  end.

(** Number states of the scanner: [stateNeg], [state0], [state1],
    [stateDot], [stateDot0], [stateE], [stateESign], [stateE0]. *)
Inductive numstate := NNeg | N0 | N1 | NDot | NDot0 | NE | NESign | NE0.

Definition isExp (c : ascii) : bool :=
  match c with "e"%char | "E"%char => true | _ => false end.
Definition isSign (c : ascii) : bool :=
  match c with "+"%char | "-"%char => true | _ => false end.
Definition isDot (c : ascii) : bool :=
  match c with "."%char => true | _ => false end.

Definition num_step (k : numstate) (c : ascii) : option numstate :=
  match k with
  | NNeg => if Ascii.eqb c "0" then Some N0
            else if isDigit19 c then Some N1 else None
  | N0 => if isDot c then Some NDot else if isExp c then Some NE else None
  | N1 => if isDigit c then Some N1
          else if isDot c then Some NDot else if isExp c then Some NE else None
  | NDot => if isDigit c then Some NDot0 else None
  | NDot0 => if isDigit c then Some NDot0 else if isExp c then Some NE else None
  | NE => if isSign c then Some NESign else if isDigit c then Some NE0 else None
  | NESign => if isDigit c then Some NE0 else None
  | NE0 => if isDigit c then Some NE0 else None
  end.

Definition num_accepting (k : numstate) : bool :=
  match k with N0 | N1 | NDot0 | NE0 => true | _ => false end.

(** Length of the number that continues at [s] from state [k]. *)
Fixpoint scan_number (k : numstate) (s : string) : option nat :=
  match s with
  | EmptyString => if num_accepting k then Some 0 else None
  | String c r =>
      match num_step k c with
      | Some k' => S <$> scan_number k' r
      | None => if num_accepting k then Some 0 else None
      end
  end.

Definition num_start (c : ascii) : option numstate :=
  if Ascii.eqb c "-" then Some NNeg
  else if Ascii.eqb c "0" then Some N0
  else if isDigit19 c then Some N1 else None.

Definition punct (c : ascii) : option token :=
  match c with
  | "{"%char => Some TLBrace | "}"%char => Some TRBrace
  | "["%char => Some TLBrack | "]"%char => Some TRBrack
  | ":"%char => Some TColon | ","%char => Some TComma
  | _ => None
  end.

Definition keyword (s : string) : option (token * nat) :=
  match s with
  | String "t" (String "r" (String "u" (String "e" _))) => Some (TTrue, 4)
  | String "f" (String "a" (String "l" (String "s" (String "e" _)))) => Some (TFalse, 5)
  | String "n" (String "u" (String "l" (String "l" _))) => Some (TNull, 4)
  | _ => None
  end.

(** The token that starts at the head of [s], with its length. *)
Definition token_at (s : string) : option (token * nat) :=
  match s with
  | EmptyString => None
  | String c r =>
      match punct c with
      | Some t => Some (t, 1)
      | None =>
          if Ascii.eqb c dquote then
            n ← scan_string r; Some (TString (substring 0 (n - 1) r), S n)
          else match num_start c with
               | Some k => n ← scan_number k r; Some (TNumber (substring 0 (S n) s), S n)
               | None => keyword s
               end
      end
  end.

(** [lex skip i s] : the tokens of [s], which starts at offset [i]; the
    first [skip] bytes belong to a token already emitted. *)
Fixpoint lex (skip i : nat) (s : string) : option (list ptoken) :=
  match s with
  | EmptyString => Some []
  | String c r =>
      match skip with
      | S k => lex k (S i) r
      | O =>
          if isSpace c then lex 0 (S i) r
          else match token_at s with
               | Some (t, n) => cons (PTok t i (i + n)) <$> lex (n - 1) (S i) r
               | None => None
               end
      end
  end.

(** ** String literals: [unquote]

    Escapes are decoded; [\uXXXX] becomes the UTF-8 encoding of the code
    point (a high/low surrogate pair is combined, a lone surrogate becomes
    U+FFFD); raw bytes that are not well-formed UTF-8 are coerced to U+FFFD
    one byte at a time, as [utf8.DecodeRune] does. *)

Definition hexval (c : ascii) : N :=
  if isDigit c then code c - 48
  else if between 97 102 c then code c - 87
  else code c - 55.

Definition hex4 (a b c d : ascii) : N :=
  ((hexval a * 16 + hexval b) * 16 + hexval c) * 16 + hexval d.

Definition byte (n : N) : ascii := ascii_of_N n.

Definition replacementChar : string :=
  String (byte 239) (String (byte 191) (String (byte 189) EmptyString)).

(** [utf8.AppendRune] *)
Definition utf8_encode (r : N) : string :=
  if N.ltb r 128 then String (byte r) EmptyString
  else if N.ltb r 2048 then
    String (byte (192 + r / 64)) (String (byte (128 + r mod 64)) EmptyString)
  else if (N.leb 55296 r && N.leb r 57343)%bool then replacementChar
  else if N.ltb r 65536 then
    String (byte (224 + r / 4096))
      (String (byte (128 + (r / 64) mod 64))
         (String (byte (128 + r mod 64)) EmptyString))
  else
    String (byte (240 + r / 262144))
      (String (byte (128 + (r / 4096) mod 64))
         (String (byte (128 + (r / 64) mod 64))
            (String (byte (128 + r mod 64)) EmptyString))).

Definition isHighSurrogate (r : N) : bool := (N.leb 55296 r && N.ltb r 56320)%bool.
Definition isLowSurrogate (r : N) : bool := (N.leb 56320 r && N.ltb r 57344)%bool.
Definition combineSurrogates (hi lo : N) : N :=
  65536 + (hi - 55296) * 1024 + (lo - 56320).

Definition unescape (e : ascii) : ascii :=
  match e with
  | "b"%char => "008"%char | "f"%char => "012"%char | "n"%char => "010"%char
  | "r"%char => "013"%char | "t"%char => "009"%char
  | _ => e
  end.

Definition isCont (c : ascii) : bool := between 128 191 c.

(** Second-byte ranges of well-formed UTF-8 (table [acceptRanges]). *)
Definition valid2 (c b1 : ascii) : bool := (between 194 223 c && isCont b1)%bool.
Definition valid3 (c b1 b2 : ascii) : bool :=
  ((   (Ascii.eqb c (byte 224) && between 160 191 b1)
    || ((between 225 236 c || between 238 239 c) && isCont b1)
    || (Ascii.eqb c (byte 237) && between 128 159 b1)) && isCont b2)%bool.
Definition valid4 (c b1 b2 b3 : ascii) : bool :=
  ((   (Ascii.eqb c (byte 240) && between 144 191 b1)
    || (between 241 243 c && isCont b1)
    || (Ascii.eqb c (byte 244) && between 128 143 b1)) && isCont b2 && isCont b3)%bool.

Fixpoint unquote (s : string) : string :=
  match s with
  | EmptyString => EmptyString
  | String "\"%char (String "u"%char (String a (String b (String c (String d r))))) =>
      let n := hex4 a b c d in
      match r with
      | String "\"%char (String "u"%char (String a' (String b' (String c' (String d' r'))))) =>
          let m := hex4 a' b' c' d' in
          if (isHighSurrogate n && isLowSurrogate m)%bool
          then utf8_encode (combineSurrogates n m) ++ unquote r'
          else utf8_encode n ++ unquote r
      | _ => utf8_encode n ++ unquote r
      end
  | String "\"%char (String e r) => String (unescape e) (unquote r)
  | String c r =>
      if N.ltb (code c) 128 then String c (unquote r)
      else
        match r with
        | String b1 r1 =>
            if valid2 c b1 then String c (String b1 (unquote r1))
            else match r1 with
                 | String b2 r2 =>
                     if valid3 c b1 b2 then String c (String b1 (String b2 (unquote r2)))
                     else match r2 with
                          | String b3 r3 =>
                              if valid4 c b1 b2 b3
                              then String c (String b1 (String b2 (String b3 (unquote r3))))
                              else replacementChar ++ unquote r
                          | EmptyString => replacementChar ++ unquote r
                          end
                 | EmptyString => replacementChar ++ unquote r
                 end
        | EmptyString => replacementChar
        end
  end.

(** ** JSON texts as trees

    An object keeps its members in document order, duplicates included, and
    with each member the exact text of its value: that text is what a
    [json.RawMessage] field receives. *)

Inductive json :=
| JNull
| JBool (b : bool)
| JNum (lit : string)
| JStr (s : string)
| JArr (elems : list json)
| JObj (members : list (string * (string * json))).

Abbreviation member := (string * (string * json))%type.

Definition mkey (m : member) : string := m.1.
Definition mraw (m : member) : string := m.2.1.
Definition mval (m : member) : json := m.2.2.

(** Open containers of the parser: where the container starts, what it
    holds so far (most recent first) and, for an object, the key that
    waits for its value. *)
Inductive frame :=
| FArr (start : nat) (acc : list json)
| FObj (start : nat) (acc : list member) (key : option string).

Inductive pstate :=
| PValue          (* a value must follow *)
| PValueOrEnd     (* just after '[' *)
| PKeyOrEnd       (* just after '{' *)
| PKey            (* after ',' in an object *)
| PColon
| PCommaOrEnd
| PDone (v : json).

Definition maxNestingDepth : N := 10000.

Section Parser.
Variable body : string.

Definition slice (from to : nat) : string := substring from (to - from) body.

(** A value spanning [vs, ve) is complete. *)
Definition reduce (stack : list frame) (v : json) (vs ve : nat)
  : option (list frame * pstate) :=
  match stack with
  | [] => Some ([], PDone v)
  | FArr st acc :: rest => Some (FArr st (v :: acc) :: rest, PCommaOrEnd)
  | FObj st acc (Some k) :: rest =>
      Some (FObj st ((k, (slice vs ve, v)) :: acc) None :: rest, PCommaOrEnd)
  | FObj _ _ None :: _ => None
  end.

Definition push (stack : list frame) (f : frame) (st : pstate)
  : option (list frame * pstate) :=
  if N.leb maxNestingDepth (N.of_nat (length stack)) then None else Some (f :: stack, st).

Definition begin_value (stack : list frame) (t : ptoken)
  : option (list frame * pstate) :=
  match tok t with
  | TLBrack => push stack (FArr (tstart t) []) PValueOrEnd
  | TLBrace => push stack (FObj (tstart t) [] None) PKeyOrEnd
  | TString raw => reduce stack (JStr (unquote raw)) (tstart t) (tend t)
  | TNumber lit => reduce stack (JNum lit) (tstart t) (tend t)
  | TTrue => reduce stack (JBool true) (tstart t) (tend t)
  | TFalse => reduce stack (JBool false) (tstart t) (tend t)
  | TNull => reduce stack JNull (tstart t) (tend t)
  | _ => None
  end.

Definition begin_key (stack : list frame) (t : ptoken)
  : option (list frame * pstate) :=
  match tok t, stack with
  | TString raw, FObj st acc None :: rest =>
      Some (FObj st acc (Some (unquote raw)) :: rest, PColon)
  | _, _ => None
  end.

Definition end_array (stack : list frame) (t : ptoken)
  : option (list frame * pstate) :=
  match stack with
  | FArr st acc :: rest => reduce rest (JArr (rev acc)) st (tend t)
  | _ => None
  end.

Definition end_object (stack : list frame) (t : ptoken)
  : option (list frame * pstate) :=
  match stack with
  | FObj st acc None :: rest => reduce rest (JObj (rev acc)) st (tend t)
  | _ => None
  end.

Definition pstep (cfg : list frame * pstate) (t : ptoken)
  : option (list frame * pstate) :=
  let '(stack, st) := cfg in
  match st with
  | PValue => begin_value stack t
  | PValueOrEnd =>
      match tok t with TRBrack => end_array stack t | _ => begin_value stack t end
  | PKeyOrEnd =>
      match tok t with TRBrace => end_object stack t | _ => begin_key stack t end
  | PKey => begin_key stack t
  | PColon => match tok t with TColon => Some (stack, PValue) | _ => None end
  | PCommaOrEnd =>
      match tok t, stack with
      | TComma, FArr _ _ :: _ => Some (stack, PValue)
      | TComma, FObj _ _ None :: _ => Some (stack, PKey)
      | TRBrack, _ => end_array stack t
      | TRBrace, _ => end_object stack t
      | _, _ => None
      end
  | PDone _ => None
  end.

Fixpoint prun (cfg : list frame * pstate) (ts : list ptoken) : option json :=
  match ts with
  | [] => match cfg with ([], PDone v) => Some v | _ => None end
  | t :: ts' => cfg' ← pstep cfg t; prun cfg' ts'
  end.
End Parser.

(** [parse body] is [Some] exactly on the texts [checkValid] accepts: one
    JSON value, optional white space around it. *)
Definition parse (body : string) : option json :=
  ts ← lex 0 0 body; prun body ([], PValue) ts.

(** ** [Unmarshal]: errors and targets *)

Inductive json_error :=
| SyntaxError           (* the text is not one JSON value *)
| UnmarshalTypeError.   (* a value does not fit the Go type it is stored in *)

(** [Unmarshal] first validates the whole text, then stores it. *)
Definition unmarshal_with {A} (store : json -> option A) (data : string)
  : result json_error A :=
  match parse data with
  | None => Err SyntaxError
  | Some j => match store j with
              | Some a => Ok a
              | None => Err UnmarshalTypeError
              end
  end.

(** *** Scalar targets. [None] is a type mismatch. A JSON null leaves a
    [bool], [string] or [int] as it was and sets a pointer to nil. *)

Definition into_bool (old : bool) (v : json) : option bool :=
  match v with JBool b => Some b | JNull => Some old | _ => None end.

Definition into_string (old : string) (v : json) : option string :=
  match v with JStr s => Some s | JNull => Some old | _ => None end.

Definition into_string_ptr (v : json) : option (option string) :=
  match v with JStr s => Some (Some s) | JNull => Some None | _ => None end.

Fixpoint digits_val (acc : Z) (s : string) : option Z :=
  match s with
  | EmptyString => Some acc
  | String c r =>
      if isDigit c then digits_val (acc * 10 + Z.of_N (code c - 48)) r else None
  end.

(** [strconv.ParseInt(lit, 10, 64)] on a JSON number literal. *)
Definition parse_int64 (lit : string) : option Z :=
  match lit with
  | String "-"%char r =>
      n ← digits_val 0 r; if Z.leb n (2 ^ 63) then Some (- n)%Z else None
  | _ => n ← digits_val 0 lit; if Z.ltb n (2 ^ 63) then Some n else None
  end.

Definition into_int (old : Z) (v : json) : option Z :=
  match v with JNum lit => parse_int64 lit | JNull => Some old | _ => None end.

(** A [json.RawMessage] field implements [Unmarshaler]: it receives the text
    of the value whatever the value is, the literal [null] included
    ("Unmarshal calls that value's UnmarshalJSON method, including when the
    input is a JSON null"), and [RawMessage.UnmarshalJSON] stores that text.
    [None] is the nil slice of a field that was never assigned. *)
Definition into_raw (m : member) : option string := Some (mraw m).

(** *** Struct targets: field lookup

    A member is stored in the field whose name equals the key, or else in
    the field whose name equals it under [foldName]. [foldName] upper-cases
    ASCII letters and folds every other rune to the least rune of its
    simple-fold orbit; the only non-ASCII runes with an ASCII letter in
    their orbit are U+017F (long s) and U+212A (Kelvin sign). All field
    names here are ASCII, so leaving the other runes alone decides the same
    equalities. *)
Fixpoint foldName (s : string) : string :=
  match s with
  | EmptyString => EmptyString
  | String c r =>
      let plain :=
        String (if between 97 122 c then byte (code c - 32) else c) (foldName r) in
      match r with
      | String b1 r1 =>
          if (Ascii.eqb c (byte 197) && Ascii.eqb b1 (byte 191))%bool
          then String "S" (foldName r1)
          else match r1 with
               | String b2 r2 =>
                   if (Ascii.eqb c (byte 226) && Ascii.eqb b1 (byte 132)
                       && Ascii.eqb b2 (byte 170))%bool
                   then String "K" (foldName r2)
                   else plain
               | EmptyString => plain
               end
      | EmptyString => plain
      end
  end.

Definition find_field {F} (table : list (string * F)) (key : string) : option F :=
  match List.find (fun e => String.eqb key e.1) table with
  | Some e => Some e.2
  | None =>
      match List.find (fun e => String.eqb (foldName key) (foldName e.1)) table with
      | Some e => Some e.2
      | None => None
      end
  end.

(** [into_struct table set old v] stores [v] in a struct whose current
    content is [old]: members are taken in document order (a later duplicate
    overwrites), unknown keys are skipped, null changes nothing, anything
    but an object or null is a mismatch. The decoder goes on after a
    mismatch and reports it at the end; every caller here drops the struct
    when an error is reported, so the model stops at the first one. *)
Definition into_struct {S F} (table : list (string * F))
    (set : F -> member -> S -> option S) (old : S) (v : json) : option S :=
  match v with
  | JObj ms =>
      fold_left
        (fun acc m =>
           s ← acc;
           match find_field table (mkey m) with
           | Some f => set f m s
           | None => Some s
           end)
        ms (Some old)
  | JNull => Some old
  | _ => None
  end.

(** A slice target: "Unmarshal resets the slice length to zero and then
    appends each element"; null gives the nil slice. *)
Definition into_slice {A} (elem : json -> option A) (v : json) : option (list A) :=
  match v with
  | JArr l => mapM elem l
  | JNull => Some []
  | _ => None
  end.

(** *** [interface{}] and [map[string]interface{}] targets

    A number is kept as its literal; Go converts it with
    [strconv.ParseFloat], which is not modelled: [float_ok lit] says whether
    that conversion succeeds (it fails on a literal out of the float64
    range, and the decoder then reports an [UnmarshalTypeError]). *)

Inductive value :=
| VNull
| VBool (b : bool)
| VNum (lit : string)
| VStr (s : string)
| VArr (l : list value)
| VObj (m : gmap string value).

Fixpoint to_value (j : json) : value :=
  match j with
  | JNull => VNull
  | JBool b => VBool b
  | JNum l => VNum l
  | JStr s => VStr s
  | JArr l => VArr (List.map to_value l)
  | JObj ms => VObj (fold_left (fun acc m => <[m.1 := to_value m.2.2]> acc) ms ∅)
  end.

Fixpoint numbers_ok (float_ok : string -> bool) (j : json) : bool :=
  match j with
  | JNum l => float_ok l
  | JArr l => forallb (numbers_ok float_ok) l
  | JObj ms => forallb (fun m => numbers_ok float_ok m.2.2) ms
  | _ => true
  end.

Definition into_any (float_ok : string -> bool) (j : json) : option value :=
  if numbers_ok float_ok j then Some (to_value j) else None.

(** [old] is the map the variable holds ([None] is the nil map): an object
    is stored into the existing map when there is one, null sets the
    variable to nil. *)
Definition into_map (float_ok : string -> bool) (old : option (gmap string value))
    (j : json) : option (option (gmap string value)) :=
  match j with
  | JObj ms =>
      if numbers_ok float_ok j then
        Some (Some (fold_left (fun acc m => <[m.1 := to_value m.2.2]> acc) ms
                      (default ∅ old)))
      else None
  | JNull => Some None
  | _ => None
  end.

End Json.

(* ================================================================== *)
(** * Module [Mcp]: package [mcp]                                       *)
(* ================================================================== *)
Module Mcp.
Import Json.

(** ** Constants *)

Definition UploadedFilePathsFieldName : string := "_uploaded_file_paths".
Definition FormDataKeyJSON : string := "json".
Definition FormDataKeyFile : string := "file".

(** Modelled from the spec: [ExecuteToolRequest] names the JSON form field
    [FormDataKeyJson], a constant the sources do not declare (the constants
    file declares [FormDataKeyJSON]); the specification gives the field the
    name [json], the value of [FormDataKeyJSON]. *)
Definition FormDataKeyJson : string := FormDataKeyJSON.

Definition UploadedFilePathsSchema : value :=
  VObj (<["type" := VStr "array"]>
       (<["description" := VStr "List of file paths to be uploaded"]>
       (<["items" := VObj (<["type" := VStr "string"]>
                          (<["description" := VStr "Path to the uploaded file"]> ∅))]>
        ∅))).

(** ** Data *)

Record ToolInvokeEndpoints := { Json : string; Form : string }.

(** [InputSchema] is a [json.RawMessage]: [None] is the nil slice. *)
Record Tool := {
  Name : string;
  Description : string;
  InputSchema : option string;
  AllowUploadFiles : bool;
  InvokeEndpoints : ToolInvokeEndpoints
}.

Record ToolsetManifest := {
  Namespace : string;
  ManifestName : string;
  Generation : Z;
  Tools : list Tool
}.

Record APIClient := { baseURL : string; apiKey : string }.

Definition NewAPIClient (baseURL apiKey : string) : APIClient :=
  {| baseURL := baseURL; apiKey := apiKey |}.

(** ** Errors

    One constructor per [fmt.Errorf] site, with the name the specification
    gives that kind of failure; [Error] renders the message. *)
Inductive error :=
| LibError (msg : string)              (* returned by os, io or net/http *)
| JsonError (e : json_error)           (* returned by json.Unmarshal *)
| ErrCreateRequest (cause : error)     (* "failed to create request: %w" *)
| ErrExecuteRequest (cause : error)    (* "failed to execute request: %w"   TransportError *)
| ErrReadBody (cause : error)          (* "failed to read response body: %w" *)
| ErrUnexpectedStatus (status : Z) (body : string)
                                       (* "unexpected status code: %d, body: %s"   TransportError *)
| ErrUnmarshalResponse (cause : error) (* "failed to unmarshal response: %w"   DecodeError *)
| ErrAPI (msg : string)                (* "API error: %s"   RemoteError *)
| ErrNoInvokeEndpoint (tool : string)  (* "tool %s has no invoke endpoint"   ConfigError *)
| ErrParseUploadedFilePaths (cause : error)
                                       (* "failed to parse uploaded_file_paths: %w" *)
| ErrOpenFile (path : string) (cause : error)
                                       (* "failed to open file %s: %w"   IOError *)
| ErrDetectMime (path : string) (cause : error)
                                       (* "failed to detect MIME type for file %s: %w"   IOError *)
| ErrReadFile (cause : error)          (* "failed to read file: %w"   IOError *)
| ErrCopyFile (cause : error)          (* "failed to copy file into form: %w" *)
| ErrFetchManifest (cause : error)     (* "failed to fetch toolset manifest: %w" *)
| ErrRegisterHandlers (cause : error)  (* "failed to register tool handlers: %w" *)
| ErrParseInputSchema (tool : string) (cause : error)
                                       (* "failed to parse input schema for tool %s: %w" *)
| ErrMarshalInputSchema (tool : string) (cause : error).
                                       (* "failed to marshal updated input schema for tool %s: %w" *)

(** The texts of [encoding/json]'s own errors are abbreviated. *)
Definition json_error_text (e : json_error) : string :=
  match e with
  | SyntaxError => "json: syntax error"
  | UnmarshalTypeError => "json: cannot unmarshal value into Go value"
  end.

Fixpoint Error (e : error) : string :=
  match e with
  | LibError msg => msg
  | JsonError j => json_error_text j
  | ErrCreateRequest c => "failed to create request: " ++ Error c
  | ErrExecuteRequest c => "failed to execute request: " ++ Error c
  | ErrReadBody c => "failed to read response body: " ++ Error c
  | ErrUnexpectedStatus status body =>
      "unexpected status code: " ++ pretty status ++ ", body: " ++ body
  | ErrUnmarshalResponse c => "failed to unmarshal response: " ++ Error c
  | ErrAPI msg => "API error: " ++ msg
  | ErrNoInvokeEndpoint t => "tool " ++ t ++ " has no invoke endpoint"
  | ErrParseUploadedFilePaths c => "failed to parse uploaded_file_paths: " ++ Error c
  | ErrOpenFile p c => "failed to open file " ++ p ++ ": " ++ Error c
  | ErrDetectMime p c => "failed to detect MIME type for file " ++ p ++ ": " ++ Error c
  | ErrReadFile c => "failed to read file: " ++ Error c
  | ErrCopyFile c => "failed to copy file into form: " ++ Error c
  | ErrFetchManifest c => "failed to fetch toolset manifest: " ++ Error c
  | ErrRegisterHandlers c => "failed to register tool handlers: " ++ Error c
  | ErrParseInputSchema t c =>
      "failed to parse input schema for tool " ++ t ++ ": " ++ Error c
  | ErrMarshalInputSchema t c =>
      "failed to marshal updated input schema for tool " ++ t ++ ": " ++ Error c
  end.

(** ** api_client.go: the structs the responses are decoded into *)

(** The anonymous struct [response] and the structs nested in it. *)
Module ManifestResponse.
Record endpoints := { Json : string; Form : string }.
Record tool := {
  Name : string;
  Description : string;
  InputSchema : option string;
  AllowUploadFiles : bool;
  InvokeEndpoints : endpoints
}.
Record data := {
  Namespace : string;
  DataName : string;
  Generation : Z;
  Tools : list tool
}.
Record t := {
  IsSuccess : bool;
  Data : data;
  Error : option string;
  ErrorCode : option string
}.

Definition zero_endpoints : endpoints := {| Json := ""; Form := "" |}.
Definition zero_tool : tool :=
  {| Name := ""; Description := ""; InputSchema := None;
     AllowUploadFiles := false; InvokeEndpoints := zero_endpoints |}.
Definition zero_data : data :=
  {| Namespace := ""; DataName := ""; Generation := 0; Tools := [] |}.
Definition zero : t :=
  {| IsSuccess := false; Data := zero_data; Error := None; ErrorCode := None |}.

Inductive endpoints_field := fJson | fForm.
Inductive tool_field :=
  fName | fDescription | fInputSchema | fAllowUploadFiles | fInvokeEndpoints.
Inductive data_field := fNamespace | fDataName | fGeneration | fTools.
Inductive field := fIsSuccess | fData | fError | fErrorCode.

(** The [json:"..."] tags. *)
Definition endpoints_tags := [("json", fJson); ("form", fForm)].
Definition tool_tags :=
  [("name", fName); ("description", fDescription); ("input_schema", fInputSchema);
   ("allow_upload_files", fAllowUploadFiles); ("invoke_endpoints", fInvokeEndpoints)].
Definition data_tags :=
  [("namespace", fNamespace); ("name", fDataName); ("generation", fGeneration);
   ("tools", fTools)].
Definition tags :=
  [("isSuccess", fIsSuccess); ("data", fData); ("error", fError);
   ("errorCode", fErrorCode)].

Definition set_endpoints (f : endpoints_field) (m : member) (s : endpoints)
  : option endpoints :=
  match f with
  | fJson => x ← into_string (Json s) (mval m); Some {| Json := x; Form := Form s |}
  | fForm => x ← into_string (Form s) (mval m); Some {| Json := Json s; Form := x |}
  end.

Definition set_tool (f : tool_field) (m : member) (s : tool) : option tool :=
  match f with
  | fName =>
      x ← into_string (Name s) (mval m);
      Some {| Name := x; Description := Description s; InputSchema := InputSchema s;
              AllowUploadFiles := AllowUploadFiles s;
              InvokeEndpoints := InvokeEndpoints s |}
  | fDescription =>
      x ← into_string (Description s) (mval m);
      Some {| Name := Name s; Description := x; InputSchema := InputSchema s;
              AllowUploadFiles := AllowUploadFiles s;
              InvokeEndpoints := InvokeEndpoints s |}
  | fInputSchema =>
      x ← into_raw m;
      Some {| Name := Name s; Description := Description s; InputSchema := Some x;
              AllowUploadFiles := AllowUploadFiles s;
              InvokeEndpoints := InvokeEndpoints s |}
  | fAllowUploadFiles =>
      x ← into_bool (AllowUploadFiles s) (mval m);
      Some {| Name := Name s; Description := Description s;
              InputSchema := InputSchema s; AllowUploadFiles := x;
              InvokeEndpoints := InvokeEndpoints s |}
  | fInvokeEndpoints =>
      x ← into_struct endpoints_tags set_endpoints (InvokeEndpoints s) (mval m);
      Some {| Name := Name s; Description := Description s;
              InputSchema := InputSchema s; AllowUploadFiles := AllowUploadFiles s;
              InvokeEndpoints := x |}
  end.

Definition set_data (f : data_field) (m : member) (s : data) : option data :=
  match f with
  | fNamespace =>
      x ← into_string (Namespace s) (mval m);
      Some {| Namespace := x; DataName := DataName s; Generation := Generation s;
              Tools := Tools s |}
  | fDataName =>
      x ← into_string (DataName s) (mval m);
      Some {| Namespace := Namespace s; DataName := x; Generation := Generation s;
              Tools := Tools s |}
  | fGeneration =>
      x ← into_int (Generation s) (mval m);
      Some {| Namespace := Namespace s; DataName := DataName s; Generation := x;
              Tools := Tools s |}
  | fTools =>
      x ← into_slice (into_struct tool_tags set_tool zero_tool) (mval m);
      Some {| Namespace := Namespace s; DataName := DataName s;
              Generation := Generation s; Tools := x |}
  end.

Definition set (f : field) (m : member) (s : t) : option t :=
  match f with
  | fIsSuccess =>
      x ← into_bool (IsSuccess s) (mval m);
      Some {| IsSuccess := x; Data := Data s; Error := Error s;
              ErrorCode := ErrorCode s |}
  | fData =>
      x ← into_struct data_tags set_data (Data s) (mval m);
      Some {| IsSuccess := IsSuccess s; Data := x; Error := Error s;
              ErrorCode := ErrorCode s |}
  | fError =>
      x ← into_string_ptr (mval m);
      Some {| IsSuccess := IsSuccess s; Data := Data s; Error := x;
              ErrorCode := ErrorCode s |}
  | fErrorCode =>
      x ← into_string_ptr (mval m);
      Some {| IsSuccess := IsSuccess s; Data := Data s; Error := Error s;
              ErrorCode := x |}
  end.

(** [json.Unmarshal(body, &response)] *)
Definition Unmarshal (body : string) : result json_error t :=
  unmarshal_with (into_struct tags set zero) body.
End ManifestResponse.

(** The anonymous struct [asgardResponse] of [ExecuteToolRequest]. [Data] is
    a [json.RawMessage]: [None] is the nil slice. *)
Module AsgardResponse.
Record t := {
  IsSuccess : bool;
  Data : option string;
  Error : option string;
  ErrorCode : option string
}.

Definition zero : t :=
  {| IsSuccess := false; Data := None; Error := None; ErrorCode := None |}.

Inductive field := fIsSuccess | fData | fError | fErrorCode.

Definition tags :=
  [("isSuccess", fIsSuccess); ("data", fData); ("error", fError);
   ("errorCode", fErrorCode)].

Definition set (f : field) (m : member) (s : t) : option t :=
  match f with
  | fIsSuccess =>
      x ← into_bool (IsSuccess s) (mval m);
      Some {| IsSuccess := x; Data := Data s; Error := Error s;
              ErrorCode := ErrorCode s |}
  | fData =>
      x ← into_raw m;
      Some {| IsSuccess := IsSuccess s; Data := Some x; Error := Error s;
              ErrorCode := ErrorCode s |}
  | fError =>
      x ← into_string_ptr (mval m);
      Some {| IsSuccess := IsSuccess s; Data := Data s; Error := x;
              ErrorCode := ErrorCode s |}
  | fErrorCode =>
      x ← into_string_ptr (mval m);
      Some {| IsSuccess := IsSuccess s; Data := Data s; Error := Error s;
              ErrorCode := x |}
  end.

(** [json.Unmarshal(respBytes, &asgardResponse)] *)
Definition Unmarshal (body : string) : result json_error t :=
  unmarshal_with (into_struct tags set zero) body.
End AsgardResponse.

(** ** The world outside the package *)

(** What a path leads to. *)
Inductive FileNode :=
| OpenFails (msg : string)     (* [os.Open] returns this error (no such file, no permission) *)
| ReadFails (msg : string)     (* opens, but every read returns this error (a directory) *)
| Regular (content : string).

(** [http.Header]: canonical key to values. *)
Record Request := {
  Method : string;
  URL : string;
  Header : gmap string (list string);
  Body : string
}.

(** [ReadAll] is what [io.ReadAll(resp.Body)] returns. *)
Record Response := {
  StatusCode : Z;
  ReadAll : result string string
}.

Record World := {
  (** the file system *)
  files : string -> FileNode;
  (** [http.DetectContentType] *)
  DetectContentType : string -> string;
  (** [fmt.Sprintf("%v", x)] for a decoded JSON value that is not a string *)
  Sprint : value -> string;
  (** whether [strconv.ParseFloat] accepts a number literal *)
  float_ok : string -> bool;
  (** [json.Marshal] and [json.MarshalIndent(_, "", "  ")] *)
  Marshal : value -> result string string;
  MarshalIndent : value -> result string string;
  (** the error of [http.NewRequest method url], if any *)
  NewRequest_error : string -> string -> option string;
  (** [http.Client.Do] *)
  Do : Request -> result string Response;
  (** the boundary [multipart.NewWriter] draws *)
  boundary : string
}.

(** ** Effects: open files, deferred calls, requests sent *)

Record Sys := {
  next_fd : nat;
  open_fds : list nat;          (* file handles not yet released *)
  deferred : list nat;          (* [defer f.Close()] of the running function *)
  sent : list Request           (* requests handed to the HTTP client, oldest first *)
}.

Definition Sys0 : Sys :=
  {| next_fd := 3; open_fds := []; deferred := []; sent := [] |}.

Definition M (A : Type) : Type := Sys -> Sys * result error A.

Definition ret {A} (a : A) : M A := fun st => (st, Ok a).
Definition fail {A} (e : error) : M A := fun st => (st, Err e).
Definition bind {A B} (m : M A) (k : A -> M B) : M B :=
  fun st => match m st with
            | (st', Ok a) => k a st'
            | (st', Err e) => (st', Err e)
            end.
(** [v, err := call; if err != nil { return nil, fmt.Errorf(".. %w", err) }] *)
Definition wrap {A} (w : error -> error) (m : M A) : M A :=
  fun st => match m st with
            | (st', Ok a) => (st', Ok a)
            | (st', Err e) => (st', Err (w e))
            end.
Definition lift {A} (r : result error A) : M A := fun st => (st, r).

Notation "'let*' x ':=' m 'in' k" := (bind m (fun x => k))
  (at level 10, x name, m at level 100, k at level 200).

Record File := { fd : nat; path : string }.

Definition set_deferred (d : list nat) (st : Sys) : Sys :=
  {| next_fd := next_fd st; open_fds := open_fds st; deferred := d; sent := sent st |}.

Fixpoint release (n : nat) (fds : list nat) : list nat :=
  match fds with
  | [] => []
  | m :: fds' => if Nat.eqb m n then fds' else m :: release n fds'
  end.

(** [f.Close()] *)
Definition close_fd (n : nat) (st : Sys) : Sys :=
  {| next_fd := next_fd st; open_fds := release n (open_fds st);
     deferred := deferred st; sent := sent st |}.

(** [defer f.Close()] *)
Definition defer_Close (f : File) : M unit :=
  fun st => (set_deferred (fd f :: deferred st) st, Ok tt).

(** A function body with its own deferred calls: they run, last one first,
    on every return. *)
Definition func {A} (body : M A) : M A :=
  fun st =>
    let '(st', r) := body (set_deferred [] st) in
    (set_deferred (deferred st) (fold_left (fun s n => close_fd n s) (deferred st') st'), r).

Section Package.
Variable W : World.

(** [os.Open] *)
Definition os_Open (name : string) : M File :=
  fun st =>
    match files W name with
    | OpenFails msg => (st, Err (LibError msg))
    | _ =>
        ({| next_fd := S (next_fd st); open_fds := next_fd st :: open_fds st;
            deferred := deferred st; sent := sent st |},
         Ok {| fd := next_fd st; path := name |})
    end.

Definition zeros (n : nat) : string := string_of_list_ascii (repeat zero n).

(** [buffer := make([]byte, n); _, err = file.Read(buffer)] on a handle
    that has not been read yet: the buffer afterwards. A read at the end
    of the file, so any read of an empty file, returns [io.EOF]. *)
Definition file_Read (f : File) (n : nat) : M string :=
  match files W (path f) with
  | Regular content =>
      match content with
      | EmptyString => fail (LibError "EOF")
      | _ => ret (substring 0 n content ++ zeros (n - String.length content))
      end
  | ReadFails msg => fail (LibError msg)
  | OpenFails msg => fail (LibError msg)
  end.

(** [io.Copy(dst, f)] from a handle that has not been read yet: the bytes
    written to [dst]. *)
Definition io_Copy (f : File) : M string :=
  match files W (path f) with
  | Regular content => ret content
  | ReadFails msg => fail (LibError msg)
  | OpenFails msg => fail (LibError msg)
  end.

(** ** utils: [DetectMime] *)
Definition DetectMime (filePath : string) : M string :=
  func (
    let* file := wrap (ErrOpenFile filePath) (os_Open filePath) in
    let* _ := defer_Close file in
    (* Read the first 512 bytes *)
    let* buffer := wrap ErrReadFile (file_Read file 512) in
    (* Detect the content type (MIME) *)
    ret (DetectContentType W buffer)).

(** ** net/http *)

Definition toUpper (c : ascii) : ascii :=
  if between 97 122 c then byte (code c - 32) else c.
Definition toLower (c : ascii) : ascii :=
  if between 65 90 c then byte (code c + 32) else c.

(** [textproto.CanonicalMIMEHeaderKey] on a key made of letters, digits
    and hyphens. *)
Fixpoint canonical (upper : bool) (s : string) : string :=
  match s with
  | EmptyString => EmptyString
  | String c r =>
      String (if upper then toUpper c else toLower c) (canonical (Ascii.eqb c "-") r)
  end.

Definition Header_Set (key val : string) (req : Request) : Request :=
  {| Method := Method req; URL := URL req;
     Header := <[canonical true key := [val]]> (Header req);
     Body := Body req |}.

Definition http_NewRequest (method url body : string) : M Request :=
  match NewRequest_error W method url with
  | Some msg => fail (LibError msg)
  | None => ret {| Method := method; URL := url; Header := ∅; Body := body |}
  end.

(** [c.client.Do(req)]: the request leaves the process. *)
Definition client_Do (req : Request) : M Response :=
  fun st =>
    ({| next_fd := next_fd st; open_fds := open_fds st; deferred := deferred st;
        sent := sent st ++ [req] |},
     match Do W req with
     | Ok resp => Ok resp
     | Err msg => Err (LibError msg)
     end).

Definition io_ReadAll (resp : Response) : M string :=
  match ReadAll resp with
  | Ok b => ret b
  | Err msg => fail (LibError msg)
  end.

Definition StatusOK : Z := 200.

(** ** api_client.go: [FetchToolsetManifest] *)

(** [// Convert tools] *)
Definition convertTool (t : ManifestResponse.tool) : Tool :=
  {| Name := ManifestResponse.Name t;
     Description := ManifestResponse.Description t;
     InputSchema := ManifestResponse.InputSchema t;
     AllowUploadFiles := ManifestResponse.AllowUploadFiles t;
     InvokeEndpoints :=
       {| Json := ManifestResponse.Json (ManifestResponse.InvokeEndpoints t);
          Form := ManifestResponse.Form (ManifestResponse.InvokeEndpoints t) |} |}.

Definition FetchToolsetManifest (c : APIClient) : M ToolsetManifest :=
  func (
    (* Create HTTP request *)
    let* req := wrap ErrCreateRequest (http_NewRequest "GET" (baseURL c) "") in
    (* Add headers *)
    let req := Header_Set "accept" "application/json" req in
    let req := Header_Set "X-API-KEY" (apiKey c) req in
    (* Execute request *)
    let* resp := wrap ErrExecuteRequest (client_Do req) in
    (* Read response body *)
    let* body := wrap ErrReadBody (io_ReadAll resp) in
    (* Check status code *)
    if negb (Z.eqb (StatusCode resp) StatusOK)
    then fail (ErrUnexpectedStatus (StatusCode resp) body)
    else
      (* Parse response *)
      match ManifestResponse.Unmarshal body with
      | Err e => fail (ErrUnmarshalResponse (JsonError e))
      | Ok response =>
          (* Check for API errors *)
          if negb (ManifestResponse.IsSuccess response)
          then fail (ErrAPI (default "unknown error" (ManifestResponse.Error response)))
          else
            (* Create toolset manifest with converted tools *)
            let d := ManifestResponse.Data response in
            ret {| Namespace := ManifestResponse.Namespace d;
                   ManifestName := ManifestResponse.DataName d;
                   Generation := ManifestResponse.Generation d;
                   Tools := List.map convertTool (ManifestResponse.Tools d) |}
      end).

(** ** mime/multipart *)

(** One part: its header lines in the order they are written (sorted by
    key) and its content. *)
Record Part := { PartHeader : list (string * string); PartBody : string }.

Definition crlf : string := String "013" (String "010" EmptyString).

Definition render_header (h : list (string * string)) : string :=
  fold_right (fun kv acc => kv.1 ++ ": " ++ kv.2 ++ crlf ++ acc) crlf h.

(** The bytes in the buffer after [CreatePart]/[Write] for each part and
    the final [Close]. *)
Fixpoint render_parts (first : bool) (b : string) (ps : list Part) : string :=
  match ps with
  | [] => crlf ++ "--" ++ b ++ "--" ++ crlf
  | p :: ps' =>
      (if first then "" else crlf) ++ "--" ++ b ++ crlf
      ++ render_header (PartHeader p) ++ PartBody p ++ render_parts false b ps'
  end.

Definition render (ps : list Part) : string := render_parts true (boundary W) ps.

(** [strings.NewReplacer("\\", "\\\\", `"`, "\\\"")] *)
Fixpoint quoteEscaper (s : string) : string :=
  match s with
  | EmptyString => EmptyString
  | String c r =>
      if (Ascii.eqb c "\" || Ascii.eqb c dquote)%bool
      then String "\" (String c (quoteEscaper r))
      else String c (quoteEscaper r)
  end.

(** [mw.WriteField(fieldname, value)] *)
Definition WriteField (fieldname val : string) : Part :=
  {| PartHeader :=
       [("Content-Disposition",
         "form-data; name=" ++ String dquote (quoteEscaper fieldname) ++ String dquote "")];
     PartBody := val |}.

Definition FormDataContentType : string :=
  "multipart/form-data; boundary=" ++ boundary W.

(** ** path/filepath: [Base], with [/] as the separator *)

Definition isSep (c : ascii) : bool := Ascii.eqb c "/".

Fixpoint dropWhile {A} (f : A -> bool) (l : list A) : list A :=
  match l with
  | x :: l' => if f x then dropWhile f l' else l
  | [] => []
  end.

Fixpoint takeWhile {A} (f : A -> bool) (l : list A) : list A :=
  match l with
  | x :: l' => if f x then x :: takeWhile f l' else []
  | [] => []
  end.

Definition filepath_Base (p : string) : string :=
  match p with
  | EmptyString => "."
  | _ =>
      (* Strip trailing slashes, then find the last element *)
      let stripped := dropWhile isSep (rev (list_ascii_of_string p)) in
      let last := rev (takeWhile (fun c => negb (isSep c)) stripped) in
      match last with
      | [] => "/"     (* it had only slashes *)
      | _ => string_of_list_ascii last
      end
  end.

(** ** api_client.go: [ExecuteToolRequest] *)

(** [fmt.Sprintf("%v", fpIntf)] *)
Definition Sprintf_v (x : value) : string :=
  match x with
  | VStr s => s
  | _ => Sprint W x
  end.

(** The header of a file part. *)
Definition fileHeader (fp mimeType : string) : list (string * string) :=
  let fileName := quoteEscaper (filepath_Base fp) in
  [("Content-Disposition",
    "form-data; name=" ++ String dquote FormDataKeyFile ++ String dquote ""
    ++ "; filename=" ++ String dquote fileName ++ String dquote "");
   ("Content-Type", mimeType)].

(** [for _, fpIntf := range filePathsIntf { ... }]; [parts] are the parts
    written so far, most recent last. *)
Fixpoint attachFiles (parts : list Part) (filePathsIntf : list value) : M (list Part) :=
  match filePathsIntf with
  | [] => ret parts
  | fpIntf :: rest =>
      let fp := Sprintf_v fpIntf in
      let* f := wrap (ErrOpenFile fp) (os_Open fp) in
      let* _ := defer_Close f in
      (* Detect MIME type *)
      let* mimeType := wrap (ErrDetectMime fp) (DetectMime fp) in
      let h := fileHeader fp mimeType in
      let* content := wrap ErrCopyFile (io_Copy f) in
      attachFiles (parts ++ [{| PartHeader := h; PartBody := content |}]) rest
  end.

(** [inputData[UploadedFilePathsFieldName].([]interface{})] *)
Definition filePathsOf (inputData : option (gmap string value)) : option (list value) :=
  match default ∅ inputData !! UploadedFilePathsFieldName with
  | Some (VArr l) => Some l
  | _ => None
  end.

(** [// Prepare the body], upload branch: the parts of the form. *)
Definition multipartParts (input : string) : M (list Part) :=
  (* 1) JSON payload field *)
  let parts := [WriteField FormDataKeyJson input] in
  (* 2) Extract file paths and attach them *)
  match unmarshal_with (into_map (float_ok W) (Some ∅)) input with
  | Err e => fail (ErrParseUploadedFilePaths (JsonError e))
  | Ok inputData =>
      match filePathsOf inputData with
      | Some filePathsIntf => attachFiles parts filePathsIntf
      | None => ret parts
      end
  end.

(** [// Prepare the body]: the body and its content type. *)
Definition prepareBody (tool : Tool) (input : string) : M (string * string) :=
  if AllowUploadFiles tool then
    let* parts := multipartParts input in
    (* 3) finalize *)
    ret (render parts, FormDataContentType)
  else
    (* JSON path *)
    ret (input, "application/json").

(** [// Parse Asgard MCP response format] and what follows it. *)
Definition unwrapEnvelope (respBytes : string) : result error string :=
  match AsgardResponse.Unmarshal respBytes with
  | Err _ =>
      (* If it's not in the Asgard format, return the raw response *)
      Ok respBytes
  | Ok asgardResponse =>
      (* Check for API errors *)
      if negb (AsgardResponse.IsSuccess asgardResponse)
      then Err (ErrAPI (default "unknown error" (AsgardResponse.Error asgardResponse)))
      else
        (* Return the data portion of the response *)
        match AsgardResponse.Data asgardResponse with
        | Some data => Ok data
        | None =>
            (* If no data but success is true, return the original body *)
            Ok respBytes
        end
  end.

Definition selectEndpoint (tool : Tool) : string :=
  if AllowUploadFiles tool then Form (InvokeEndpoints tool)
  else Json (InvokeEndpoints tool).

(** The request of an invocation, once its body is prepared. *)
Definition buildRequest (c : APIClient) (endpoint body contentType : string) : M Request :=
  (* Create HTTP request *)
  let* req := wrap ErrCreateRequest (http_NewRequest "POST" endpoint body) in
  (* Add headers *)
  let req := Header_Set "Content-Type" contentType req in
  let req := Header_Set "Accept" "application/json" req in
  let req := Header_Set "X-API-KEY" (apiKey c) req in
  ret req.

(** [ExecuteToolRequest] up to [// Add headers]: the request. *)
Definition prepareRequest (c : APIClient) (tool : Tool) (input : string) : M Request :=
  (* Determine the endpoint based on tool definition *)
  let endpoint := selectEndpoint tool in
  (* Use the invoke endpoint from the tool definition *)
  if String.eqb endpoint "" then fail (ErrNoInvokeEndpoint (Name tool))
  else
    (* Prepare the body *)
    let* prepared := prepareBody tool input in
    buildRequest c endpoint prepared.1 prepared.2.

(** [ExecuteToolRequest] from [// Execute request] on. *)
Definition roundTrip (req : Request) : M string :=
  (* Execute request *)
  let* resp := wrap ErrExecuteRequest (client_Do req) in
  (* Read response body *)
  let* respBytes := wrap ErrReadBody (io_ReadAll resp) in
  (* Check status code *)
  if negb (Z.eqb (StatusCode resp) StatusOK)
  then fail (ErrUnexpectedStatus (StatusCode resp) respBytes)
  else lift (unwrapEnvelope respBytes).

Definition ExecuteToolRequest (c : APIClient) (tool : Tool) (input : string) : M string :=
  func (let* req := prepareRequest c tool input in roundTrip req).

(** ** server.go *)

(** The types of the mcp-go library the server uses. *)
Inductive Content := TextContent (text : string).
Record CallToolResult := { ResultContent : list Content; IsError : bool }.

Definition NewToolResultError (text : string) : CallToolResult :=
  {| ResultContent := [TextContent text]; IsError := true |}.
Definition NewToolResultText (text : string) : CallToolResult :=
  {| ResultContent := [TextContent text]; IsError := false |}.

(** [mcp.Tool], the fields the server sets. *)
Record McpTool := {
  ToolName : string;
  ToolDescription : string;
  RawInputSchema : string
}.

(** What a tool handler returns, a pair of a [CallToolResult] and an
    [error], after its effects. *)
Definition HandlerFunc : Type := value -> Sys -> Sys * (CallToolResult * option error).

Record ServerTool := { McpToolOf : McpTool; Handler : HandlerFunc }.

(** [handler := func(ctx, req) ... { ... }] for [localTool]; [arguments] is [req.Params.Arguments]. The [log.Printf]
    calls are left out. *)
Definition handler (c : APIClient) (localTool : Tool) : HandlerFunc :=
  fun arguments st =>
    (* Create the arguments JSON *)
    match Marshal W arguments with
    | Err msg =>
        (st, (NewToolResultError ("Failed to marshal arguments: " ++ msg), None))
    | Ok argsJSON =>
        (* Execute the tool request *)
        match ExecuteToolRequest c localTool argsJSON st with
        | (st', Err err) =>
            (st', (NewToolResultError ("Tool execution failed: " ++ Error err), None))
        | (st', Ok responseJSON) =>
            (* Parse the response *)
            match unmarshal_with (into_any (float_ok W)) responseJSON with
            | Err e =>
                (st', (NewToolResultError
                         ("Failed to parse tool response: " ++ json_error_text e), None))
            | Ok responseObj =>
                (* Format the response as indented JSON for readability *)
                match MarshalIndent W responseObj with
                | Err msg =>
                    (st', (NewToolResultError
                             ("Failed to format tool response: " ++ msg), None))
                | Ok responseText => (st', (NewToolResultText responseText, None))
                end
            end
        end
    end.

(** The [if schema != nil { ... }] block of [registerToolHandlers]:
    [schema] is the decoded map ([None] is the nil map). *)
Definition augmentSchema (allowUploadFiles : bool) (schema : option (gmap string value))
  : option (gmap string value) :=
  match schema with
  | None => None
  | Some schema =>
      (* Ensure the schema has the required 'type' field set to 'object' *)
      let schema :=
        match schema !! "type" with
        | Some _ => schema
        | None => <["type" := VStr "object"]> schema
        end in
      if allowUploadFiles then
        (* Ensure the schema has the required 'properties' field *)
        let schema :=
          match schema !! "properties" with
          | Some _ => schema
          | None => <["properties" := VObj ∅]> schema
          end in
        (* Append the UploadedFilePaths field if the tool allows file uploads *)
        match schema !! "properties" with
        | Some (VObj props) =>
            Some (<["properties" :=
                     VObj (<[UploadedFilePathsFieldName := UploadedFilePathsSchema]> props)]>
                    schema)
        | _ => Some schema
        end
      else Some schema
  end.

(** The value [json.Marshal] is given for a [map[string]interface{}]. *)
Definition map_value (schema : option (gmap string value)) : value :=
  match schema with
  | None => VNull
  | Some m => VObj m
  end.

Definition bytes_of (raw : option string) : string := default "" raw.

(** The [mcp.Tool] definition [registerToolHandlers] builds for one tool. *)
Definition describeTool (tool : Tool) : result error McpTool :=
  (* Convert input schema from JSON to ToolInputSchema *)
  match unmarshal_with (into_map (float_ok W) None) (bytes_of (InputSchema tool)) with
  | Err e => Err (ErrParseInputSchema (Name tool) (JsonError e))
  | Ok schema =>
      let schema := augmentSchema (AllowUploadFiles tool) schema in
      (* Convert schema back to JSON for the tool definition *)
      match Marshal W (map_value schema) with
      | Err msg => Err (ErrMarshalInputSchema (Name tool) (LibError msg))
      | Ok updatedSchema =>
          Ok {| ToolName := Name tool; ToolDescription := Description tool;
                (* Set the RawInputSchema to the modified schema *)
                RawInputSchema := updatedSchema |}
      end
  end.

(** [registerToolHandlers]: the loop over [s.tools]; [reg] is the tool table
    of the MCP server ([AddTool] stores the entry under the tool's name). *)
Fixpoint registerToolHandlers (c : APIClient) (tools : list Tool)
    (reg : gmap string ServerTool) : result error (gmap string ServerTool) :=
  match tools with
  | [] => Ok reg
  | tool :: rest =>
      match describeTool tool with
      | Err e => Err e
      | Ok mcpTool =>
          (* Register the tool with the server *)
          registerToolHandlers c rest
            (<[ToolName mcpTool := {| McpToolOf := mcpTool; Handler := handler c tool |}]> reg)
      end
  end.

Record Server := {
  endpointURL : string;
  serverApiKey : string;
  tools : list Tool;
  apiClient : APIClient;
  mcpServer : gmap string ServerTool
}.

(** [NewServer]; the logging hooks are left out. *)
Definition NewServer (endpointURL apiKey : string) : M Server :=
  (* Create API client *)
  let c := NewAPIClient endpointURL apiKey in
  (* Fetch the toolset manifest *)
  let* manifest := wrap ErrFetchManifest (FetchToolsetManifest c) in
  (* Register tool handlers *)
  let* reg := wrap ErrRegisterHandlers (lift (registerToolHandlers c (Tools manifest) ∅)) in
  ret {| endpointURL := endpointURL; serverApiKey := apiKey;
         (* Store tools from manifest *)
         tools := Tools manifest;
         apiClient := c; mcpServer := reg |}.

End Package.
End Mcp.

(* ================================================================== *)
(** * The earlier client and the command                               *)
(* ================================================================== *)

(** The second half of [api_client.go]: the client of the earlier manifest
    format, whose tools carry a single [invoke_endpoint] and no upload
    flag. *)
Module Legacy.
Import Json Mcp.

Record Tool := {
  Name : string;
  Description : string;
  InputSchema : option string;
  InvokeEndpoint : string
}.

(** [ExecuteToolRequest]; from [// Execute request] on it reads as the
    current one. *)
Definition ExecuteToolRequest (W : World) (c : APIClient) (tool : Tool) (input : string)
  : M string :=
  func (
    (* Use the invoke endpoint from the tool definition *)
    if String.eqb (InvokeEndpoint tool) "" then fail (ErrNoInvokeEndpoint (Name tool))
    else
      (* Create HTTP request *)
      let* req := wrap ErrCreateRequest
                    (http_NewRequest W "POST" (InvokeEndpoint tool) input) in
      (* Add headers *)
      let req := Header_Set "Content-Type" "application/json" req in
      let req := Header_Set "Accept" "application/json" req in
      let req := Header_Set "X-API-KEY" (apiKey c) req in
      roundTrip W req).

End Legacy.

(** [main] of the command, after [flag.Parse]: its arguments are the values
    of the flags [-endpoint] and [-api-key]. *)
Module Main.
Import Json Mcp.

(** How [main] ends: the process exits with a status after printing a
    line, or [server.Start()] is called. *)
Inductive Outcome :=
| Exit (status : Z) (line : string)
| Start (server : Server).

Definition main (W : World) (endpointURL apiKey : string) : Sys -> Sys * Outcome :=
  fun st =>
    (* Validate mandatory parameters *)
    if (String.eqb endpointURL "" || String.eqb apiKey "")%bool
    then (st, Exit 1 "Error: Both endpoint URL and API key are required")
    else
      (* Initialize MCP asgard-mcp-server *)
      match NewServer W endpointURL apiKey st with
      | (st', Err err) =>
          (st', Exit 1 ("Failed to create MCP asgard-mcp-server: " ++ Error err))
      | (st', Ok server) =>
          (* Start the asgard-mcp-server *)
          (st', Start server)
      end.

End Main.

(* ================================================================== *)
(** * Module [Stub]: concrete worlds                                    *)
(* ================================================================== *)
Module Stub.
Import Json Mcp.

(** A small file system: a text file, an empty file, a directory. *)
Definition files (p : string) : FileNode :=
  if String.eqb p "./testfile.txt" then Regular "hello"
  else if String.eqb p "./empty.txt" then Regular ""
  else if String.eqb p "/tmp" then ReadFails "read /tmp: is a directory"
  else OpenFails ("open " ++ p ++ ": no such file or directory").

(** The last signature of [http.DetectContentType] and its fallback: data
    that matches none of the earlier signatures is [text/plain] unless it
    holds a binary byte. *)
Definition isBinaryByte (c : ascii) : bool :=
  (N.leb (code c) 8 || N.eqb (code c) 11 || between 14 26 c || between 28 31 c)%bool.

Definition sniffText (data : string) : string :=
  if existsb isBinaryByte (list_ascii_of_string data)
  then "application/octet-stream" else "text/plain; charset=utf-8".

(** A stand-in for [json.Marshal] on decoded values: compact, keys sorted,
    numbers as their literals, only quotes and backslashes escaped. *)
Definition quote (s : string) : string :=
  String dquote (quoteEscaper s) ++ String dquote "".

Fixpoint insert_sorted (kv : string * string) (l : list (string * string))
  : list (string * string) :=
  match l with
  | [] => [kv]
  | x :: l' => if String.leb kv.1 x.1 then kv :: l else x :: insert_sorted kv l'
  end.

Definition join (sep : string) (l : list string) : string :=
  match l with
  | [] => ""
  | x :: l' => fold_left (fun acc y => acc ++ sep ++ y) l' x
  end.

Fixpoint encode (depth : nat) (v : value) : string :=
  match depth with
  | O => "null"
  | S d =>
      match v with
      | VNull => "null"
      | VBool b => if b then "true" else "false"
      | VNum l => l
      | VStr s => quote s
      | VArr l => "[" ++ join "," (List.map (encode d) l) ++ "]"
      | VObj m =>
          let kvs := List.map (fun kv => (kv.1, encode d kv.2)) (map_to_list m) in
          "{" ++ join "," (List.map (fun kv => quote kv.1 ++ ":" ++ kv.2)
                             (fold_right insert_sorted [] kvs)) ++ "}"
      end
  end.

(** The world in which the HTTP client behaves as [respond]. *)
Definition world (respond : Request -> result string Response) : World :=
  {| Mcp.files := files;
     DetectContentType := sniffText;
     Sprint := fun v => encode 64 v;
     float_ok := fun _ => true;
     Marshal := fun v => Ok (encode 64 v);
     MarshalIndent := fun v => Ok (encode 64 v);
     NewRequest_error := fun _ _ => None;
     Do := respond;
     boundary := "boundary" |}.

(** A stub endpoint that answers every request alike. *)
Definition answers (status : Z) (body : string) : Request -> result string Response :=
  fun _ => Ok {| StatusCode := status; ReadAll := Ok body |}.

Definition unreachable : Request -> result string Response :=
  fun _ => Err "connection refused".

Definition client : APIClient := NewAPIClient "http://stub/manifest" "secret".

Definition jsonTool : Tool :=
  {| Name := "echo"; Description := "echoes its arguments";
     InputSchema := Some "{}"; AllowUploadFiles := false;
     InvokeEndpoints := {| Json := "http://stub/echo"; Form := "" |} |}.

Definition uploadTool : Tool :=
  {| Name := "upload"; Description := "stores files";
     InputSchema := Some "{}"; AllowUploadFiles := true;
     InvokeEndpoints := {| Json := "http://stub/upload.json"; Form := "http://stub/upload" |} |}.

(** A manifest with a tool that has no invocation target and a tool that
    has no name. *)
Definition manifestBody : string :=
  dq ("{'isSuccess':true,'data':{'namespace':'ns','name':'ts','generation':1,'tools':["
      ++ "{'name':'orphan','description':'no endpoint','input_schema':{'type':'object'}},"
      ++ "{'description':'no name','input_schema':{},'invoke_endpoints':{'json':'http://stub/x'}}"
      ++ "]}}").

Definition orphan : Tool :=
  {| Name := "orphan"; Description := "no endpoint";
     InputSchema := Some (dq "{'type':'object'}"); AllowUploadFiles := false;
     InvokeEndpoints := {| Json := ""; Form := "" |} |}.

Definition nameless : Tool :=
  {| Name := ""; Description := "no name";
     InputSchema := Some "{}"; AllowUploadFiles := false;
     InvokeEndpoints := {| Json := "http://stub/x"; Form := "" |} |}.

(** The request [ExecuteToolRequest] builds for [jsonTool]. *)
Definition jsonRequest (input : string) : Request :=
  Header_Set "X-API-KEY" "secret"
    (Header_Set "Accept" "application/json"
       (Header_Set "Content-Type" "application/json"
          {| Method := "POST"; URL := "http://stub/echo"; Header := ∅; Body := input |})).

End Stub.

(* ================================================================== *)
(** * Vocabulary of the statements                                      *)
(* ================================================================== *)
Import Json Mcp.

(** The invocation gets as far as the HTTP exchange and the client hands
    back [resp]. *)
Definition responds (W : World) (c : APIClient) (tool : Tool) (input : string)
    (st : Sys) (resp : Response) : Prop :=
  ∃ st1 req, prepareRequest W c tool input (set_deferred [] st) = (st1, Ok req)
             ∧ Do W req = Ok resp.

(** Members of a response body and the envelope fields they are stored in. *)
Definition field_eqb (f g : AsgardResponse.field) : bool :=
  match f, g with
  | AsgardResponse.fIsSuccess, AsgardResponse.fIsSuccess
  | AsgardResponse.fData, AsgardResponse.fData
  | AsgardResponse.fError, AsgardResponse.fError
  | AsgardResponse.fErrorCode, AsgardResponse.fErrorCode => true
  | _, _ => false
  end.

Definition stored_in (f : AsgardResponse.field) (m : member) : bool :=
  match find_field AsgardResponse.tags (mkey m) with
  | Some g => field_eqb f g
  | None => false
  end.

(** The last member stored in field [f], if any. *)
Fixpoint last_stored (f : AsgardResponse.field) (ms : list member) : option member :=
  match ms with
  | [] => None
  | m :: ms' =>
      match last_stored f ms' with
      | Some x => Some x
      | None => if stored_in f m then Some m else None
      end
  end.

(** What [DetectMime] returns for a path, and the state it leaves. *)
Definition sniffed (W : World) (filePath : string) : result error string :=
  match files W filePath with
  | OpenFails msg => Err (ErrOpenFile filePath (LibError msg))
  | ReadFails msg => Err (ErrReadFile (LibError msg))
  | Regular content =>
      match content with
      | EmptyString => Err (ErrReadFile (LibError "EOF"))
      | _ => Ok (DetectContentType W
                   (substring 0 512 content ++ zeros (512 - String.length content)))
      end
  end.

Definition fd_used (st : Sys) : Sys :=
  {| next_fd := S (next_fd st); open_fds := open_fds st;
     deferred := deferred st; sent := sent st |}.

(** [p] is the form part of the listed value [v]: the path opens, its type
    is detected, and the part carries the file header for that path and
    type and the bytes of the file. *)
Definition attaches (W : World) (v : value) (p : Part) : Prop :=
  let fp := Sprintf_v W v in
  ∃ content mimeType,
    files W fp = Regular content
    ∧ (DetectMime W fp Sys0).2 = Ok mimeType
    ∧ p = {| PartHeader := fileHeader fp mimeType; PartBody := content |}.

(** The request [FetchToolsetManifest] sends. *)
Definition manifestRequest (c : APIClient) : Request :=
  Header_Set "X-API-KEY" (apiKey c)
    (Header_Set "accept" "application/json"
       {| Method := "GET"; URL := baseURL c; Header := ∅; Body := "" |}).

(** The manifest a decoded response is converted into. *)
Definition manifestOf (response : ManifestResponse.t) : ToolsetManifest :=
  let d := ManifestResponse.Data response in
  {| Namespace := ManifestResponse.Namespace d;
     ManifestName := ManifestResponse.DataName d;
     Generation := ManifestResponse.Generation d;
     Tools := List.map convertTool (ManifestResponse.Tools d) |}.

(** The schema augmentation rule, in the words of the specification: the
    top-level [type] defaults to ["object"]; for an upload-capable tool a
    [properties] object is ensured and the description of the reserved
    file-paths field is put into it; nothing else changes. *)
Definition defaultType (declared : gmap string value) : gmap string value :=
  match declared !! "type" with
  | Some _ => declared
  | None => <["type" := VStr "object"]> declared
  end.

Definition declaredProperties (declared : gmap string value) : gmap string value :=
  match declared !! "properties" with
  | Some (VObj props) => props
  | _ => ∅
  end.

Definition augmentationRule (uploadCapable : bool) (declared : gmap string value)
  : gmap string value :=
  if uploadCapable then
    <["properties" :=
        VObj (<[UploadedFilePathsFieldName := UploadedFilePathsSchema]>
                (declaredProperties declared))]> (defaultType declared)
  else defaultType declared.

(** A valid tool of a manifest: its input schema is a JSON object whose
    [properties], when present, is an object. *)
Definition declaredSchema (W : World) (t : Tool) (declared : gmap string value) : Prop :=
  unmarshal_with (into_map (float_ok W) None) (bytes_of (InputSchema t))
  = Ok (Some declared).

Definition properties_is_object (declared : gmap string value) : Prop :=
  ∀ v, declared !! "properties" = Some v -> ∃ props, v = VObj props.

Definition valid_tool (W : World) (t : Tool) : Prop :=
  ∃ declared, declaredSchema W t declared ∧ properties_is_object declared.

(** [json.Marshal] does not fail on decoded values. *)
Definition marshals (W : World) : Prop := ∀ v, ∃ text, Marshal W v = Ok text.

(** The registry entry of a tool whose exposed schema is [text]. *)
Definition entryOf (W : World) (c : APIClient) (t : Tool) (text : string) : ServerTool :=
  {| McpToolOf := {| ToolName := Name t; ToolDescription := Description t;
                     RawInputSchema := text |};
     Handler := handler W c t |}.

(** The tool of the earlier format that a tool without uploads stands
    for. *)
Definition legacyOf (t : Tool) : Legacy.Tool :=
  {| Legacy.Name := Name t; Legacy.Description := Description t;
     Legacy.InputSchema := InputSchema t;
     Legacy.InvokeEndpoint := Json (InvokeEndpoints t) |}.

(** The shape of every request [ExecuteToolRequest] builds. *)
Definition invocationRequest (W : World) (c : APIClient) (tool : Tool) (req : Request)
  : Prop :=
  Method req = "POST"
  ∧ URL req = selectEndpoint tool
  ∧ Header req !! "X-Api-Key" = Some [apiKey c]
  ∧ Header req !! "Accept" = Some ["application/json"]
  ∧ Header req !! "Content-Type"
    = Some [if AllowUploadFiles tool then FormDataContentType W else "application/json"].

(** Undoing [quoteEscaper]: a backslash makes the next byte literal. *)
Fixpoint unescapeQuotes (s : string) : string :=
  match s with
  | EmptyString => EmptyString
  | String c r =>
      if Ascii.eqb c "\" then
        match r with
        | String d r' => String d (unescapeQuotes r')
        | EmptyString => String c EmptyString
        end
      else String c (unescapeQuotes r)
  end.

(** Whether a quote occurs that no backslash escapes. *)
Fixpoint hasBareQuote (s : string) : bool :=
  match s with
  | EmptyString => false
  | String c r =>
      if Ascii.eqb c "\" then
        match r with
        | String _ r' => hasBareQuote r'
        | EmptyString => false
        end
      else if Ascii.eqb c dquote then true
      else hasBareQuote r
  end.

Definition hasSeparator (s : string) : bool := existsb isSep (list_ascii_of_string s).

(** The last tool of the list that carries the name [k]. *)
Fixpoint lastNamed (k : string) (tools : list Tool) : option Tool :=
  match tools with
  | [] => None
  | t :: rest =>
      match lastNamed k rest with
      | Some t' => Some t'
      | None => if String.eqb (Name t) k then Some t else None
      end
  end.

(** The registry entry [registerToolHandlers] makes for a tool. *)
Definition registered (W : World) (c : APIClient) (t : Tool) : option ServerTool :=
  match describeTool W t with
  | Ok mcpTool => Some {| McpToolOf := mcpTool; Handler := handler W c t |}
  | Err _ => None
  end.

(* ================================================================== *)
(** * Properties                                                        *)
(* ================================================================== *)

(** ** How an invocation unfolds *)

Lemma snd_func {A} (body : M A) st : (func body st).2 = (body (set_deferred [] st)).2.
Proof. unfold func. by destruct (body _). Qed.

Lemma sent_close_all d st :
  sent (fold_left (fun s n => close_fd n s) d st) = sent st.
Proof. revert st. induction d as [|n d IH]; intros st; simpl; [done|]. by rewrite IH. Qed.

Lemma sent_func {A} (body : M A) st :
  sent (func body st).1 = sent (body (set_deferred [] st)).1.
Proof.
  unfold func. destruct (body _) as [st' r]. simpl. apply sent_close_all.
Qed.

Lemma ExecuteToolRequest_after_response W c tool input st resp body :
  responds W c tool input st resp ->
  ReadAll resp = Ok body ->
  (ExecuteToolRequest W c tool input st).2 =
    if negb (Z.eqb (StatusCode resp) StatusOK)
    then Err (ErrUnexpectedStatus (StatusCode resp) body)
    else unwrapEnvelope body.
Proof.
  intros (st1 & req & Hprep & Hdo) Hread.
  unfold ExecuteToolRequest. rewrite snd_func.
  unfold bind at 1. rewrite Hprep.
  unfold roundTrip, bind, wrap, client_Do, io_ReadAll, lift, fail, ret.
  rewrite Hdo, Hread. by destruct (negb _).
Qed.

(** ** The response envelope *)

(** C3. A response with a status other than 200 makes [ExecuteToolRequest]
    fail with the status error (the specification's TransportError), which
    carries the status and the raw body, whatever the body is: the envelope
    is not looked at. *)
Theorem non_200_is_status_error W c tool input st resp body :
  responds W c tool input st resp ->
  ReadAll resp = Ok body ->
  StatusCode resp ≠ StatusOK ->
  (ExecuteToolRequest W c tool input st).2
    = Err (ErrUnexpectedStatus (StatusCode resp) body)
  ∧ Error (ErrUnexpectedStatus (StatusCode resp) body)
    = "unexpected status code: " ++ pretty (StatusCode resp) ++ ", body: " ++ body.
Proof.
  intros Hresp Hread Hne. split; [|done].
  rewrite (ExecuteToolRequest_after_response _ _ _ _ _ _ _ Hresp Hread).
  by destruct (Z.eqb_spec (StatusCode resp) StatusOK).
Qed.

(** The body of the witness parses as a successful envelope. *)
Lemma non_200_is_status_error_witness :
  let body := dq "{'isSuccess':true,'data':{'a':1}}" in
  let W := Stub.world (Stub.answers 500 body) in
  unwrapEnvelope body = Ok (dq "{'a':1}")
  ∧ (ExecuteToolRequest W Stub.client Stub.jsonTool (dq "{'a':1}") Sys0).2
    = Err (ErrUnexpectedStatus 500 body).
Proof.
  intros body W. split; [by vm_compute|].
  refine (proj1 (non_200_is_status_error W Stub.client Stub.jsonTool (dq "{'a':1}") Sys0
                   {| StatusCode := 500; ReadAll := Ok body |} body _ _ _)).
  - exists Sys0, (Stub.jsonRequest (dq "{'a':1}")). split; [by vm_compute | reflexivity].
  - reflexivity.
  - discriminate.
Defined.

(** C2. A 200 response whose body does not decode as the envelope is
    returned as it is, as a success. *)
Theorem undecodable_body_is_returned_verbatim W c tool input st resp body e :
  responds W c tool input st resp ->
  StatusCode resp = StatusOK ->
  ReadAll resp = Ok body ->
  AsgardResponse.Unmarshal body = Err e ->
  (ExecuteToolRequest W c tool input st).2 = Ok body.
Proof.
  intros Hresp Hst Hread Hdec.
  rewrite (ExecuteToolRequest_after_response _ _ _ _ _ _ _ Hresp Hread), Hst.
  simpl. unfold unwrapEnvelope. by rewrite Hdec.
Qed.

Lemma undecodable_body_is_returned_verbatim_witness :
  let body := dq "'plain text'" in
  let W := Stub.world (Stub.answers 200 body) in
  AsgardResponse.Unmarshal body = Err UnmarshalTypeError
  ∧ (ExecuteToolRequest W Stub.client Stub.jsonTool (dq "{'a':1}") Sys0).2 = Ok body.
Proof.
  intros body W. split; [by vm_compute|].
  refine (undecodable_body_is_returned_verbatim W Stub.client Stub.jsonTool (dq "{'a':1}")
            Sys0 {| StatusCode := 200; ReadAll := Ok body |} body UnmarshalTypeError _ _ _ _).
  - exists Sys0, (Stub.jsonRequest (dq "{'a':1}")). split; [by vm_compute | reflexivity].
  - reflexivity.
  - reflexivity.
  - by vm_compute.
Defined.

(** Text that is not JSON at all takes the same path. *)
Example plain_text_is_returned_verbatim :
  AsgardResponse.Unmarshal "plain text" = Err SyntaxError
  ∧ (ExecuteToolRequest (Stub.world (Stub.answers 200 "plain text")) Stub.client
       Stub.jsonTool (dq "{'a':1}") Sys0).2 = Ok "plain text".
Proof. by vm_compute. Qed.

(** *** What the decoded envelope holds *)

Lemma fold_from_None {S F} (table : list (string * F)) (set : F -> member -> S -> option S) ms :
  fold_left
    (fun acc m => s ← acc; match find_field table (mkey m) with
                           | Some f => set f m s
                           | None => Some s
                           end) ms None = None.
Proof. induction ms as [|m ms IH]; simpl; [done|apply IH]. Qed.

Lemma envelope_Data ms : ∀ s0 env,
  into_struct AsgardResponse.tags AsgardResponse.set s0 (JObj ms) = Some env ->
  AsgardResponse.Data env =
    match last_stored AsgardResponse.fData ms with
    | Some m => Some (mraw m)
    | None => AsgardResponse.Data s0
    end.
Proof.
  unfold into_struct.
  induction ms as [|m ms IH]; intros s0 env H; simpl in *.
  - by inversion H.
  - unfold stored_in.
    destruct (find_field AsgardResponse.tags (mkey m)) as [f|] eqn:Hf.
    + destruct (AsgardResponse.set f m s0) as [s1|] eqn:Hs.
      * rewrite (IH _ _ H).
        destruct (last_stored AsgardResponse.fData ms); [done|].
        destruct f; simpl in *;
          repeat match goal with
                 | H : (_ ≫= _) = Some _ |- _ => apply bind_Some in H; destruct H as (? & ? & H)
                 | H : Some _ = Some _ |- _ => inversion H; clear H; subst
                 end; done.
      * by rewrite fold_from_None in H.
    + rewrite (IH _ _ H). by destruct (last_stored AsgardResponse.fData ms).
Qed.

Lemma envelope_IsSuccess_absent ms : ∀ s0 env,
  into_struct AsgardResponse.tags AsgardResponse.set s0 (JObj ms) = Some env ->
  last_stored AsgardResponse.fIsSuccess ms = None ->
  AsgardResponse.IsSuccess env = AsgardResponse.IsSuccess s0.
Proof.
  unfold into_struct.
  induction ms as [|m ms IH]; intros s0 env H Hnone; simpl in *.
  - by inversion H.
  - destruct (last_stored AsgardResponse.fIsSuccess ms) eqn:Hl; [done|].
    unfold stored_in in Hnone.
    destruct (find_field AsgardResponse.tags (mkey m)) as [f|] eqn:Hf.
    + destruct (AsgardResponse.set f m s0) as [s1|] eqn:Hs.
      * rewrite (IH _ _ H eq_refl).
        destruct f; simpl in *; try done;
          repeat match goal with
                 | H : (_ ≫= _) = Some _ |- _ => apply bind_Some in H; destruct H as (? & ? & H)
                 | H : Some _ = Some _ |- _ => inversion H; clear H; subst
                 end; done.
      * by rewrite fold_from_None in H.
    + by rewrite (IH _ _ H eq_refl).
Qed.

(** A decoded envelope comes from an object or from the literal null. *)
Lemma envelope_shape body env :
  AsgardResponse.Unmarshal body = Ok env ->
  (∃ ms, parse body = Some (JObj ms)
         ∧ into_struct AsgardResponse.tags AsgardResponse.set AsgardResponse.zero (JObj ms)
           = Some env)
  ∨ (parse body = Some JNull ∧ env = AsgardResponse.zero).
Proof.
  unfold AsgardResponse.Unmarshal, unmarshal_with.
  destruct (parse body) as [j|]; [|done].
  destruct (into_struct _ _ _ j) as [env'|] eqn:H; [|done].
  intros [= <-]. destruct j; try done.
  - right. simpl in H. by inversion H.
  - left. eauto.
Qed.

(** C4, as stated, fails: the envelope [{"isSuccess":true,"data":null}] has
    a null [data], and what is returned is the text [null], not the body. *)
Lemma null_data_is_returned_not_the_body :
  let body := dq "{'isSuccess':true,'data':null}" in
  let W := Stub.world (Stub.answers 200 body) in
  parse body = Some (JObj [("isSuccess", ("true", JBool true)); ("data", ("null", JNull))])
  ∧ (ExecuteToolRequest W Stub.client Stub.jsonTool (dq "{'a':1}") Sys0).2 = Ok "null"
  ∧ (ExecuteToolRequest W Stub.client Stub.jsonTool (dq "{'a':1}") Sys0).2 ≠ Ok body.
Proof. by vm_compute. Qed.

(** C4, amended. For a 200 response that decodes as the envelope with the
    success flag true, the body is an object and [ExecuteToolRequest]
    returns the text of its last [data] member, whatever that value is
    (the literal null included); when no member is stored in [data] it
    returns the body as it is. *)
Theorem success_returns_data_member_or_body W c tool input st resp body env :
  responds W c tool input st resp ->
  StatusCode resp = StatusOK ->
  ReadAll resp = Ok body ->
  AsgardResponse.Unmarshal body = Ok env ->
  AsgardResponse.IsSuccess env = true ->
  ∃ ms, parse body = Some (JObj ms)
        ∧ (ExecuteToolRequest W c tool input st).2
          = Ok (match last_stored AsgardResponse.fData ms with
                | Some m => mraw m
                | None => body
                end).
Proof.
  intros Hresp Hst Hread Hdec Hflag.
  rewrite (ExecuteToolRequest_after_response _ _ _ _ _ _ _ Hresp Hread), Hst.
  simpl. unfold unwrapEnvelope. rewrite Hdec, Hflag. simpl.
  destruct (envelope_shape _ _ Hdec) as [(ms & Hp & Hs)|[_ ->]]; [|done].
  exists ms. split; [done|].
  rewrite (envelope_Data _ _ _ Hs). simpl.
  by destruct (last_stored AsgardResponse.fData ms).
Qed.

Lemma success_returns_data_member_or_body_witness :
  let body := dq "{'isSuccess':true,'data':{'a':1}}" in
  let W := Stub.world (Stub.answers 200 body) in
  (ExecuteToolRequest W Stub.client Stub.jsonTool (dq "{'a':1}") Sys0).2 = Ok (dq "{'a':1}").
Proof.
  intros body W.
  destruct (success_returns_data_member_or_body W Stub.client Stub.jsonTool (dq "{'a':1}")
              Sys0 {| StatusCode := 200; ReadAll := Ok body |} body
              {| AsgardResponse.IsSuccess := true;
                 AsgardResponse.Data := Some (dq "{'a':1}");
                 AsgardResponse.Error := None; AsgardResponse.ErrorCode := None |})
    as (ms & Hp & ->).
  - exists Sys0, (Stub.jsonRequest (dq "{'a':1}")). split; [by vm_compute | reflexivity].
  - reflexivity.
  - reflexivity.
  - by vm_compute.
  - reflexivity.
  - vm_compute in Hp. injection Hp as <-. by vm_compute.
Defined.

Example success_without_data_returns_the_body :
  let body := dq "{'isSuccess':true}" in
  (ExecuteToolRequest (Stub.world (Stub.answers 200 body)) Stub.client Stub.jsonTool
     (dq "{'a':1}") Sys0).2 = Ok body.
Proof. by vm_compute. Qed.

(** Keys are matched to fields without regard to case. *)
Example capitalised_keys_are_stored :
  let body := dq "{'IsSuccess':true,'Data':[7]}" in
  (ExecuteToolRequest (Stub.world (Stub.answers 200 body)) Stub.client Stub.jsonTool
     (dq "{'a':1}") Sys0).2 = Ok "[7]".
Proof. by vm_compute. Qed.

(** C9. For a 200 response whose body the envelope struct accepts: a
    success flag that is false, or that no member of the body sets, is a
    remote failure, reported with the envelope's error string or with
    "unknown error"; only a body that fails to decode, never one that
    decodes without a true flag, is returned as it is. *)
Theorem unset_success_flag_is_remote_error W c tool input st resp body :
  responds W c tool input st resp ->
  StatusCode resp = StatusOK ->
  ReadAll resp = Ok body ->
  (∀ env, AsgardResponse.Unmarshal body = Ok env ->
          AsgardResponse.IsSuccess env = false ->
          (ExecuteToolRequest W c tool input st).2
          = Err (ErrAPI (default "unknown error" (AsgardResponse.Error env))))
  ∧ (∀ env ms, AsgardResponse.Unmarshal body = Ok env ->
               parse body = Some (JObj ms) ->
               last_stored AsgardResponse.fIsSuccess ms = None ->
               (ExecuteToolRequest W c tool input st).2
               = Err (ErrAPI (default "unknown error" (AsgardResponse.Error env))))
  ∧ (∀ r, (ExecuteToolRequest W c tool input st).2 = Ok r ->
          (∃ e, AsgardResponse.Unmarshal body = Err e)
          ∨ (∃ env, AsgardResponse.Unmarshal body = Ok env
                    ∧ AsgardResponse.IsSuccess env = true)).
Proof.
  intros Hresp Hst Hread.
  rewrite (ExecuteToolRequest_after_response _ _ _ _ _ _ _ Hresp Hread), Hst.
  simpl. unfold unwrapEnvelope.
  assert (Hfalse : ∀ env, AsgardResponse.Unmarshal body = Ok env ->
            AsgardResponse.IsSuccess env = false ->
            match AsgardResponse.Unmarshal body with
            | Ok a => if negb (AsgardResponse.IsSuccess a)
                      then Err (ErrAPI (default "unknown error" (AsgardResponse.Error a)))
                      else match AsgardResponse.Data a with
                           | Some data => Ok data
                           | None => Ok body
                           end
            | Err _ => Ok body
            end = Err (ErrAPI (default "unknown error" (AsgardResponse.Error env)))).
  { intros env -> ->. done. }
  split; [exact Hfalse|]. split.
  - intros env ms Hdec Hp Hnone. apply Hfalse; [done|].
    destruct (envelope_shape _ _ Hdec) as [(ms' & Hp' & Hs)|[_ ->]]; [|done].
    rewrite Hp in Hp'. injection Hp' as <-.
    by rewrite (envelope_IsSuccess_absent _ _ _ Hs Hnone).
  - intros r. destruct (AsgardResponse.Unmarshal body) as [env|e]; [|eauto].
    destruct (AsgardResponse.IsSuccess env) eqn:Hflag; simpl; [eauto|done].
Qed.

Lemma unset_success_flag_is_remote_error_witness :
  let body := "{}" in
  let W := Stub.world (Stub.answers 200 body) in
  AsgardResponse.Unmarshal body = Ok AsgardResponse.zero
  ∧ (ExecuteToolRequest W Stub.client Stub.jsonTool (dq "{'a':1}") Sys0).2
    = Err (ErrAPI "unknown error").
Proof.
  intros body W. split; [by vm_compute|].
  refine (proj1 (unset_success_flag_is_remote_error W Stub.client Stub.jsonTool
                   (dq "{'a':1}") Sys0 {| StatusCode := 200; ReadAll := Ok body |} body _ _ _)
            AsgardResponse.zero _ _).
  - exists Sys0, (Stub.jsonRequest (dq "{'a':1}")). split; [by vm_compute | reflexivity].
  - reflexivity.
  - reflexivity.
  - by vm_compute.
  - reflexivity.
Defined.

Example remote_failure_carries_the_error_string :
  let body := dq "{'isSuccess':false,'error':'bad input'}" in
  (ExecuteToolRequest (Stub.world (Stub.answers 200 body)) Stub.client Stub.jsonTool
     (dq "{'a':1}") Sys0).2 = Err (ErrAPI "bad input")
  ∧ Error (ErrAPI "bad input") = "API error: bad input".
Proof. by vm_compute. Qed.

Example object_without_flag_is_remote_error :
  let body := dq "{'data':{'a':1},'error':'quota'}" in
  (ExecuteToolRequest (Stub.world (Stub.answers 200 body)) Stub.client Stub.jsonTool
     (dq "{'a':1}") Sys0).2 = Err (ErrAPI "quota").
Proof. by vm_compute. Qed.

Example null_body_is_remote_error :
  (ExecuteToolRequest (Stub.world (Stub.answers 200 "null")) Stub.client Stub.jsonTool
     (dq "{'a':1}") Sys0).2 = Err (ErrAPI "unknown error").
Proof. by vm_compute. Qed.

(** ** [DetectMime] *)

Lemma release_head n fds : release n (n :: fds) = fds.
Proof. simpl. by rewrite Nat.eqb_refl. Qed.

Lemma DetectMime_run W filePath st :
  DetectMime W filePath st =
    (match files W filePath with
     | OpenFails _ => st
     | _ => fd_used st
     end, sniffed W filePath).
Proof.
  destruct st as [n fds d sn].
  unfold DetectMime, sniffed, func, bind, wrap, os_Open, defer_Close, file_Read,
    set_deferred, fd_used, fail, ret; simpl.
  destruct (files W filePath) as [msg|msg|content] eqn:Hf; simpl; rewrite ?Hf; simpl.
  - done.
  - by rewrite Nat.eqb_refl.
  - destruct content; simpl; by rewrite Nat.eqb_refl.
Qed.

(** The handle is released on every exit path, and nothing is sent. *)
Lemma DetectMime_releases_the_handle W filePath st :
  open_fds (DetectMime W filePath st).1 = open_fds st
  ∧ deferred (DetectMime W filePath st).1 = deferred st
  ∧ sent (DetectMime W filePath st).1 = sent st.
Proof. rewrite DetectMime_run. simpl. by destruct (files W filePath). Qed.

(** A file of at least one byte that opens and reads is classified: the
    classifier is given the 512-byte buffer, which holds the first bytes of
    the file and, for a shorter file, zero bytes after them. *)
Lemma DetectMime_classifies_the_buffer W filePath st c content :
  files W filePath = Regular (String c content) ->
  (DetectMime W filePath st).2
  = Ok (DetectContentType W
          (substring 0 512 (String c content)
           ++ zeros (512 - String.length (String c content)))).
Proof. intros Hf. rewrite DetectMime_run. unfold sniffed. by rewrite Hf. Qed.

(** C8, the code at the failing input: a file that exists and opens, and
    holds no byte. [DetectMime] reports a read failure instead of a type. *)
Theorem DetectMime_fails_on_an_empty_file :
  let W := Stub.world Stub.unreachable in
  files W "./empty.txt" = Regular ""
  ∧ (DetectMime W "./empty.txt" Sys0).2 = Err (ErrReadFile (LibError "EOF"))
  ∧ Error (ErrReadFile (LibError "EOF")) = "failed to read file: EOF".
Proof. by vm_compute. Qed.

(** The same on every empty file. *)
Lemma DetectMime_empty_file W filePath st :
  files W filePath = Regular "" ->
  (DetectMime W filePath st).2 = Err (ErrReadFile (LibError "EOF")).
Proof. intros Hf. rewrite DetectMime_run. unfold sniffed. by rewrite Hf. Qed.

(** A five-byte text file: its five bytes are text, the buffer with its
    507 zero bytes is not. *)
Example DetectMime_short_text_file :
  let W := Stub.world Stub.unreachable in
  files W "./testfile.txt" = Regular "hello"
  ∧ DetectContentType W "hello" = "text/plain; charset=utf-8"
  ∧ (DetectMime W "./testfile.txt" Sys0).2 = Ok "application/octet-stream".
Proof. by vm_compute. Qed.

(** ** The multipart form *)

Lemma attachFiles_prefix W good ps : ∀ parts st,
  Forall2 (attaches W) good ps ->
  ∃ st', sent st' = sent st
         ∧ ∀ tail, attachFiles W parts (good ++ tail)%list st
                   = attachFiles W (parts ++ ps)%list tail st'.
Proof.
  intros parts st H. revert parts st.
  induction H as [|v p good ps (content & mime & Hf & Hm & ->) _ IH]; intros parts st.
  - exists st. split; [done|]. intros tail. by rewrite app_nil_r.
  - rewrite DetectMime_run in Hm. simpl in Hm.
    set (fp := Sprintf_v W v) in *.
    set (st2 := fd_used (set_deferred (next_fd st :: deferred st)
                  {| next_fd := S (next_fd st); open_fds := next_fd st :: open_fds st;
                     deferred := deferred st; sent := sent st |})).
    destruct (IH (parts ++ [{| PartHeader := fileHeader fp mime; PartBody := content |}])%list st2)
      as (st' & Hsent & Htail).
    exists st'. split; [by rewrite Hsent|].
    intros tail. rewrite <- app_assoc in Htail. simpl in Htail. rewrite <- Htail.
    simpl. fold fp.
    unfold bind at 1. unfold wrap at 1. unfold os_Open. rewrite Hf.
    unfold bind at 1. unfold defer_Close at 1. simpl.
    unfold bind at 1. unfold wrap at 1. rewrite DetectMime_run, Hf, Hm.
    unfold bind at 1. unfold wrap at 1. unfold io_Copy. simpl. rewrite Hf.
    reflexivity.
Qed.

Lemma attachFiles_sent W vs : ∀ parts st, sent (attachFiles W parts vs st).1 = sent st.
Proof.
  induction vs as [|v vs IH]; intros parts st; simpl; [done|].
  unfold bind at 1. unfold wrap at 1. unfold os_Open.
  destruct (files W (Sprintf_v W v)) as [msg|msg|content] eqn:Hf; [done|..].
  - unfold bind at 1. unfold defer_Close at 1. simpl.
    unfold bind at 1. unfold wrap at 1. rewrite DetectMime_run, Hf.
    unfold sniffed. by rewrite Hf.
  - unfold bind at 1. unfold defer_Close at 1. simpl.
    unfold bind at 1. unfold wrap at 1. rewrite DetectMime_run, Hf.
    unfold sniffed. rewrite Hf. destruct content as [|ch content]; [done|].
    unfold bind at 1. unfold wrap at 1. unfold io_Copy. simpl. rewrite Hf. simpl.
    by rewrite IH.
Qed.

Lemma attachFiles_open_fails W parts v rest st msg :
  files W (Sprintf_v W v) = OpenFails msg ->
  (attachFiles W parts (v :: rest) st).2 = Err (ErrOpenFile (Sprintf_v W v) (LibError msg)).
Proof.
  intros Hf. simpl. unfold bind at 1. unfold wrap at 1. unfold os_Open. by rewrite Hf.
Qed.

Lemma attachFiles_detect_fails W parts v rest st e :
  (∀ msg, files W (Sprintf_v W v) ≠ OpenFails msg) ->
  (DetectMime W (Sprintf_v W v) Sys0).2 = Err e ->
  (attachFiles W parts (v :: rest) st).2 = Err (ErrDetectMime (Sprintf_v W v) e).
Proof.
  intros Hopen Hm. rewrite DetectMime_run in Hm. simpl in Hm.
  simpl. unfold bind at 1. unfold wrap at 1. unfold os_Open.
  destruct (files W (Sprintf_v W v)) as [msg|msg|content] eqn:Hf;
    [by destruct (Hopen msg)|..];
    unfold bind at 1; unfold defer_Close at 1; simpl;
    unfold bind at 1; unfold wrap at 1; by rewrite DetectMime_run, Hf, Hm.
Qed.

(** No step before [// Execute request] sends anything. *)
Lemma prepareRequest_sent W c tool input st :
  sent (prepareRequest W c tool input st).1 = sent st.
Proof.
  unfold prepareRequest. destruct (String.eqb _ _); [done|].
  unfold bind at 1.
  assert (Hbody : sent (prepareBody W tool input st).1 = sent st).
  { unfold prepareBody. destruct (AllowUploadFiles tool); [|done].
    unfold bind. 
    assert (Hparts : sent (multipartParts W input st).1 = sent st).
    { unfold multipartParts. destruct (unmarshal_with _ _) as [inputData|e]; [|done].
      destruct (filePathsOf inputData); [apply attachFiles_sent|done]. }
    by destruct (multipartParts W input st) as [st1 [parts|e]]. }
  destruct (prepareBody W tool input st) as [st1 [prepared|e]]; [|done].
  simpl in Hbody. unfold buildRequest, bind, wrap, http_NewRequest.
  by destruct (NewRequest_error W _ _).
Qed.

Lemma ExecuteToolRequest_not_prepared W c tool input st st1 e :
  prepareRequest W c tool input (set_deferred [] st) = (st1, Err e) ->
  (ExecuteToolRequest W c tool input st).2 = Err e
  ∧ sent (ExecuteToolRequest W c tool input st).1 = sent st.
Proof.
  intros H. unfold ExecuteToolRequest. rewrite snd_func, sent_func.
  unfold bind. rewrite H. split; [done|].
  pose proof (prepareRequest_sent W c tool input (set_deferred [] st)) as Hs.
  by rewrite H in Hs.
Qed.

Lemma ExecuteToolRequest_prepared W c tool input st st1 req :
  prepareRequest W c tool input (set_deferred [] st) = (st1, Ok req) ->
  sent (ExecuteToolRequest W c tool input st).1 = (sent st ++ [req])%list.
Proof.
  intros H. unfold ExecuteToolRequest. rewrite sent_func.
  unfold bind at 1. rewrite H.
  pose proof (prepareRequest_sent W c tool input (set_deferred [] st)) as Hs.
  rewrite H in Hs. simpl in Hs.
  unfold roundTrip, bind, wrap, client_Do. simpl.
  destruct (Do W req) as [resp|msg]; simpl; [|by rewrite Hs].
  unfold io_ReadAll. destruct (ReadAll resp); simpl; [|by rewrite Hs].
  destruct (negb _); simpl; by rewrite Hs.
Qed.

Lemma prepareRequest_upload W c tool input st inputData vs :
  AllowUploadFiles tool = true ->
  Form (InvokeEndpoints tool) ≠ "" ->
  unmarshal_with (into_map (float_ok W) (Some ∅)) input = Ok inputData ->
  filePathsOf inputData = Some vs ->
  prepareRequest W c tool input st =
    match attachFiles W [WriteField FormDataKeyJson input] vs st with
    | (st1, Ok parts) =>
        buildRequest W c (Form (InvokeEndpoints tool)) (render W parts)
          (FormDataContentType W) st1
    | (st1, Err e) => (st1, Err e)
    end.
Proof.
  intros Hup Hform Hdec Hpaths.
  unfold prepareRequest, selectEndpoint, prepareBody, multipartParts.
  rewrite Hup, Hdec, Hpaths.
  apply String.eqb_neq in Hform. rewrite Hform.
  unfold bind. by destruct (attachFiles _ _ _ _) as [st1 [parts|e]].
Qed.

(** C5, as stated, fails: a listed path that opens (a directory does) but
    cannot be read is not among the cases of the claim; the invocation
    fails at MIME detection and builds no body. *)
Lemma listed_directory_opens_but_is_not_attached :
  let W := Stub.world (Stub.answers 200 "{}") in
  let input := dq "{'_uploaded_file_paths':['/tmp']}" in
  (os_Open W "/tmp" Sys0).2 = Ok {| fd := 3; path := "/tmp" |}
  ∧ (ExecuteToolRequest W Stub.client Stub.uploadTool input Sys0).2
    = Err (ErrDetectMime "/tmp" (ErrReadFile (LibError "read /tmp: is a directory")))
  ∧ sent (ExecuteToolRequest W Stub.client Stub.uploadTool input Sys0).1 = [].
Proof. by vm_compute. Qed.

(** C5, amended. An upload-capable tool is invoked with arguments whose
    [_uploaded_file_paths] is a list [vs] of N values.
    - When every listed path opens and has its MIME type detected, one
      request is sent; its body is the form made of the field [json], whose
      content is the arguments as given, followed by N file parts in the
      order of the list, each with field name [file], the escaped base name
      of its path as file name, and the bytes of the file as content.
    - When a listed path does not open, or opens but has no MIME type
      detected, and the paths before it are fine, the invocation fails with
      an error that names that path, and no request is sent. *)
Theorem upload_form_has_one_part_per_listed_file W c tool input st inputData vs :
  AllowUploadFiles tool = true ->
  Form (InvokeEndpoints tool) ≠ "" ->
  unmarshal_with (into_map (float_ok W) (Some ∅)) input = Ok inputData ->
  filePathsOf inputData = Some vs ->
  (∀ ps, Forall2 (attaches W) vs ps ->
         NewRequest_error W "POST" (Form (InvokeEndpoints tool)) = None ->
         ∃ req, sent (ExecuteToolRequest W c tool input st).1 = (sent st ++ [req])%list
                ∧ Body req = render W (WriteField FormDataKeyJson input :: ps)
                ∧ length ps = length vs)
  ∧ (∀ good ps v rest msg,
       vs = (good ++ v :: rest)%list ->
       Forall2 (attaches W) good ps ->
       files W (Sprintf_v W v) = OpenFails msg ->
       (ExecuteToolRequest W c tool input st).2
       = Err (ErrOpenFile (Sprintf_v W v) (LibError msg))
       ∧ sent (ExecuteToolRequest W c tool input st).1 = sent st)
  ∧ (∀ good ps v rest e,
       vs = (good ++ v :: rest)%list ->
       Forall2 (attaches W) good ps ->
       (∀ msg, files W (Sprintf_v W v) ≠ OpenFails msg) ->
       (DetectMime W (Sprintf_v W v) Sys0).2 = Err e ->
       (ExecuteToolRequest W c tool input st).2
       = Err (ErrDetectMime (Sprintf_v W v) e)
       ∧ sent (ExecuteToolRequest W c tool input st).1 = sent st).
Proof.
  intros Hup Hform Hdec Hpaths.
  pose proof (prepareRequest_upload W c tool input (set_deferred [] st) _ _
                Hup Hform Hdec Hpaths) as Hprep.
  split; [|split].
  - intros ps Hps Hnew.
    destruct (attachFiles_prefix W vs ps [WriteField FormDataKeyJson input]
                (set_deferred [] st) Hps) as (st' & _ & Htail).
    specialize (Htail []). rewrite app_nil_r in Htail. simpl in Htail.
    rewrite Htail in Hprep.
    unfold buildRequest, bind, wrap, http_NewRequest in Hprep.
    rewrite Hnew in Hprep. simpl in Hprep.
    eexists. split; [exact (ExecuteToolRequest_prepared _ _ _ _ _ _ _ Hprep)|].
    split; [done|]. symmetry. by eapply Forall2_length.
  - intros good ps v rest msg -> Hgood Hf.
    destruct (attachFiles_prefix W good ps [WriteField FormDataKeyJson input]
                (set_deferred [] st) Hgood) as (st' & _ & Htail).
    rewrite Htail in Hprep.
    pose proof (attachFiles_open_fails W ([WriteField FormDataKeyJson input] ++ ps)%list
                  v rest st' msg Hf) as Hfail.
    destruct (attachFiles W _ (v :: rest) st') as [st1 r]. simpl in Hfail. subst r.
    exact (ExecuteToolRequest_not_prepared _ _ _ _ _ _ _ Hprep).
  - intros good ps v rest e -> Hgood Hopen Hm.
    destruct (attachFiles_prefix W good ps [WriteField FormDataKeyJson input]
                (set_deferred [] st) Hgood) as (st' & _ & Htail).
    rewrite Htail in Hprep.
    pose proof (attachFiles_detect_fails W ([WriteField FormDataKeyJson input] ++ ps)%list
                  v rest st' e Hopen Hm) as Hfail.
    destruct (attachFiles W _ (v :: rest) st') as [st1 r]. simpl in Hfail. subst r.
    exact (ExecuteToolRequest_not_prepared _ _ _ _ _ _ _ Hprep).
Qed.

(** The multipart example of the specification. (The stub classifier sees
    the zero bytes of the buffer, hence the type.) *)
Lemma upload_form_has_one_part_per_listed_file_witness :
  let W := Stub.world (Stub.answers 200 (dq "{'isSuccess':true}")) in
  let input := dq "{'a':1,'_uploaded_file_paths':['./testfile.txt']}" in
  let filePart :=
    {| PartHeader :=
         [("Content-Disposition",
           dq "form-data; name='file'; filename='testfile.txt'");
          ("Content-Type", "application/octet-stream")];
       PartBody := "hello" |} in
  ∃ req, sent (ExecuteToolRequest W Stub.client Stub.uploadTool input Sys0).1 = [req]
         ∧ Body req = render W [WriteField FormDataKeyJson input; filePart]
         ∧ length [filePart] = 1.
Proof.
  intros W input filePart.
  refine (proj1 (upload_form_has_one_part_per_listed_file W Stub.client Stub.uploadTool
                   input Sys0
                   (Some (<["_uploaded_file_paths" := VArr [VStr "./testfile.txt"]]>
                            (<["a" := VNum "1"]> ∅)))
                   [VStr "./testfile.txt"] _ _ _ _) [filePart] _ _).
  - reflexivity.
  - discriminate.
  - vm_compute; reflexivity.
  - vm_compute; reflexivity.
  - constructor; [|constructor]. exists "hello", "application/octet-stream".
    split; [vm_compute; reflexivity|]. split; vm_compute; reflexivity.
  - reflexivity.
Defined.

Example missing_file_fails_and_sends_nothing :
  let W := Stub.world (Stub.answers 200 (dq "{'isSuccess':true}")) in
  let input := dq "{'_uploaded_file_paths':['./testfile.txt','./missing.bin']}" in
  (ExecuteToolRequest W Stub.client Stub.uploadTool input Sys0).2
  = Err (ErrOpenFile "./missing.bin"
           (LibError "open ./missing.bin: no such file or directory"))
  ∧ sent (ExecuteToolRequest W Stub.client Stub.uploadTool input Sys0).1 = []
  ∧ open_fds (ExecuteToolRequest W Stub.client Stub.uploadTool input Sys0).1 = [].
Proof. by vm_compute. Qed.

Example json_field_carries_the_arguments :
  WriteField FormDataKeyJson (dq "{'a':1}")
  = {| PartHeader := [("Content-Disposition", dq "form-data; name='json'")];
       PartBody := dq "{'a':1}" |}.
Proof. vm_compute; reflexivity. Qed.

Example file_name_is_the_escaped_base_name :
  fileHeader (dq "/data/my 'report'.txt") "text/plain"
  = [("Content-Disposition",
      dq "form-data; name='file'; filename='my \'report\'.txt'");
     ("Content-Type", "text/plain")].
Proof. by vm_compute. Qed.

(** Same defect as in [DetectMime_fails_on_an_empty_file]: an empty file is
    not attached. *)
Example listed_empty_file_is_not_attached :
  let W := Stub.world (Stub.answers 200 "{}") in
  let input := dq "{'_uploaded_file_paths':['./empty.txt']}" in
  (ExecuteToolRequest W Stub.client Stub.uploadTool input Sys0).2
  = Err (ErrDetectMime "./empty.txt" (ErrReadFile (LibError "EOF"))).
Proof. by vm_compute. Qed.

(** ** Arguments of an upload-capable tool *)

(** Only an object or the literal null decodes into a map. *)
Lemma into_map_needs_object_or_null W old input j :
  parse input = Some j ->
  (∀ ms, j ≠ JObj ms) ->
  j ≠ JNull ->
  unmarshal_with (into_map (float_ok W) old) input = Err UnmarshalTypeError.
Proof.
  intros Hp Hobj Hnull. unfold unmarshal_with. rewrite Hp.
  destruct j; try done. by destruct (Hobj members).
Qed.

(** Arguments that do not decode into a map stop an upload-capable
    invocation before anything is sent. *)
Lemma upload_arguments_must_unmarshal W c tool input st e :
  AllowUploadFiles tool = true ->
  unmarshal_with (into_map (float_ok W) (Some ∅)) input = Err e ->
  is_ok (ExecuteToolRequest W c tool input st).2 = false
  ∧ sent (ExecuteToolRequest W c tool input st).1 = sent st
  ∧ (Form (InvokeEndpoints tool) ≠ "" ->
     (ExecuteToolRequest W c tool input st).2
     = Err (ErrParseUploadedFilePaths (JsonError e))).
Proof.
  intros Hup Hdec.
  assert (Hprep : ∃ e', prepareRequest W c tool input (set_deferred [] st)
                        = (set_deferred [] st, Err e')
                        ∧ (Form (InvokeEndpoints tool) ≠ "" ->
                           e' = ErrParseUploadedFilePaths (JsonError e))).
  { unfold prepareRequest, selectEndpoint. rewrite Hup.
    destruct (String.eqb_spec (Form (InvokeEndpoints tool)) "") as [Heq|Hne].
    - eexists. split; [done|]. intros Hne. by destruct Hne.
    - eexists. split; [|done].
      unfold prepareBody, multipartParts, bind, fail. by rewrite Hup, Hdec. }
  destruct Hprep as (e' & Hprep & He').
  destruct (ExecuteToolRequest_not_prepared _ _ _ _ _ _ _ Hprep) as [Hr Hs].
  rewrite Hr. split; [done|]. split; [done|]. intros Hne. by rewrite (He' Hne).
Qed.

(** C10, as stated, fails: the literal null is valid JSON and not an
    object, and an upload-capable tool sends it, in a form without file
    parts. *)
Lemma null_arguments_are_sent_by_an_upload_tool :
  let W := Stub.world (Stub.answers 200 (dq "{'isSuccess':true,'data':1}")) in
  parse "null" = Some JNull
  ∧ (ExecuteToolRequest W Stub.client Stub.uploadTool "null" Sys0).2 = Ok "1"
  ∧ List.map Body (sent (ExecuteToolRequest W Stub.client Stub.uploadTool "null" Sys0).1)
    = [render W [WriteField FormDataKeyJson "null"]].
Proof. vm_compute. done. Qed.

(** C10, amended. Arguments that are valid JSON but neither an object nor
    the literal null make the invocation of an upload-capable tool fail
    before any request is sent; a tool that is not upload-capable sends the
    same arguments as the request body, unchanged. *)
Theorem upload_arguments_must_be_object_or_null W c tool input st j :
  parse input = Some j ->
  (∀ ms, j ≠ JObj ms) ->
  j ≠ JNull ->
  (AllowUploadFiles tool = true ->
     is_ok (ExecuteToolRequest W c tool input st).2 = false
     ∧ sent (ExecuteToolRequest W c tool input st).1 = sent st
     ∧ (Form (InvokeEndpoints tool) ≠ "" ->
        (ExecuteToolRequest W c tool input st).2
        = Err (ErrParseUploadedFilePaths (JsonError UnmarshalTypeError))))
  ∧ (AllowUploadFiles tool = false ->
     Json (InvokeEndpoints tool) ≠ "" ->
     NewRequest_error W "POST" (Json (InvokeEndpoints tool)) = None ->
     ∃ req, sent (ExecuteToolRequest W c tool input st).1 = (sent st ++ [req])%list
            ∧ Body req = input
            ∧ URL req = Json (InvokeEndpoints tool)).
Proof.
  intros Hp Hobj Hnull. split.
  - intros Hup. apply upload_arguments_must_unmarshal; [done|].
    by apply (into_map_needs_object_or_null W _ _ j).
  - intros Hup Hjson Hnew.
    assert (Hprep : ∃ req, prepareRequest W c tool input (set_deferred [] st)
                           = (set_deferred [] st, Ok req)
                           ∧ Body req = input ∧ URL req = Json (InvokeEndpoints tool)).
    { unfold prepareRequest, selectEndpoint. rewrite Hup.
      apply String.eqb_neq in Hjson. rewrite Hjson.
      unfold prepareBody. rewrite Hup.
      unfold bind at 1. unfold ret at 1. simpl.
      unfold buildRequest, bind, wrap, http_NewRequest. rewrite Hnew. simpl.
      eexists. split; [reflexivity|]. done. }
    destruct Hprep as (req & Hprep & Hbody & Hurl).
    exists req. split; [|done].
    exact (ExecuteToolRequest_prepared _ _ _ _ _ _ _ Hprep).
Qed.

Lemma upload_arguments_must_be_object_or_null_witness :
  let W := Stub.world (Stub.answers 200 (dq "{'isSuccess':true}")) in
  let input := "[1,2]" in
  (ExecuteToolRequest W Stub.client Stub.uploadTool input Sys0).2
  = Err (ErrParseUploadedFilePaths (JsonError UnmarshalTypeError))
  ∧ sent (ExecuteToolRequest W Stub.client Stub.uploadTool input Sys0).1 = []
  ∧ ∃ req, sent (ExecuteToolRequest W Stub.client Stub.jsonTool input Sys0).1 = [req]
           ∧ Body req = input.
Proof.
  intros W input.
  assert (Hp : parse input = Some (JArr [JNum "1"; JNum "2"])) by (vm_compute; reflexivity).
  assert (Hobj : ∀ ms, JArr [JNum "1"; JNum "2"] ≠ JObj ms) by discriminate.
  assert (Hnull : JArr [JNum "1"; JNum "2"] ≠ JNull) by discriminate.
  destruct (upload_arguments_must_be_object_or_null W Stub.client Stub.uploadTool input Sys0
              _ Hp Hobj Hnull) as [Hup _].
  destruct (upload_arguments_must_be_object_or_null W Stub.client Stub.jsonTool input Sys0
              _ Hp Hobj Hnull) as [_ Hjson].
  destruct (Hup eq_refl) as (_ & Hsent & Herr).
  split; [apply Herr; discriminate|]. split; [exact Hsent|].
  destruct (Hjson eq_refl) as (req & Hs & Hb & _); [discriminate|reflexivity|].
  exists req. by split.
Defined.

(** ** Start-up: the manifest and the registry *)

Lemma FetchToolsetManifest_accepts W c st resp body response :
  NewRequest_error W "GET" (baseURL c) = None ->
  Do W (manifestRequest c) = Ok resp ->
  StatusCode resp = StatusOK ->
  ReadAll resp = Ok body ->
  ManifestResponse.Unmarshal body = Ok response ->
  ManifestResponse.IsSuccess response = true ->
  (FetchToolsetManifest W c st).2 = Ok (manifestOf response).
Proof.
  intros Hnew Hdo Hst Hread Hdec Hflag.
  unfold FetchToolsetManifest. rewrite snd_func.
  unfold bind, wrap, http_NewRequest, client_Do, io_ReadAll, fail, ret.
  rewrite Hnew. simpl. fold (manifestRequest c).
  rewrite Hdo, Hread, Hst, Hdec, Hflag. done.
Qed.

(** Whether a tool can be described depends on its schema alone. *)
Lemma describeTool_ignores_the_endpoints W t e :
  is_ok (describeTool W t)
  = is_ok (describeTool W {| Name := Name t; Description := Description t;
                              InputSchema := InputSchema t;
                              AllowUploadFiles := AllowUploadFiles t;
                              InvokeEndpoints := e |}).
Proof. done. Qed.

Lemma describeTool_name W t mt : describeTool W t = Ok mt -> ToolName mt = Name t.
Proof.
  unfold describeTool. destruct (unmarshal_with _ _); [|done].
  destruct (Marshal W _); [|done]. by intros [= <-].
Qed.

Lemma registerToolHandlers_accepts W c tools : ∀ reg0,
  Forall (fun t => is_ok (describeTool W t) = true) tools ->
  ∃ reg, registerToolHandlers W c tools reg0 = Ok reg
         ∧ (∀ t, t ∈ tools -> is_Some (reg !! Name t))
         ∧ (∀ k, is_Some (reg0 !! k) -> is_Some (reg !! k)).
Proof.
  induction tools as [|t tools IH]; intros reg0 H.
  - exists reg0. split; [done|]. split; [|done]. intros t Ht. by apply elem_of_nil in Ht.
  - inversion H as [|? ? Ht Htools]; subst. simpl.
    destruct (describeTool W t) as [mt|e] eqn:Hd; [|done].
    destruct (IH (<[ToolName mt := {| McpToolOf := mt; Handler := handler W c t |}]> reg0)
                Htools) as (reg & Hreg & Hin & Hkeep).
    exists reg. split; [done|]. split.
    + intros t' Ht'. apply elem_of_cons in Ht' as [->|Ht']; [|by apply Hin].
      apply Hkeep. rewrite (describeTool_name _ _ _ Hd), lookup_insert_eq. eauto.
    + intros k Hk. apply Hkeep.
      destruct (decide (ToolName mt = k)) as [->|Hne].
      * rewrite lookup_insert_eq. eauto.
      * by rewrite lookup_insert_ne.
Qed.

Lemma NewServer_after_fetch W url key st manifest reg :
  (FetchToolsetManifest W (NewAPIClient url key) st).2 = Ok manifest ->
  registerToolHandlers W (NewAPIClient url key) (Tools manifest) ∅ = Ok reg ->
  (NewServer W url key st).2
  = Ok {| endpointURL := url; serverApiKey := key; tools := Tools manifest;
          apiClient := NewAPIClient url key; mcpServer := reg |}.
Proof.
  intros Hfetch Hreg. unfold NewServer, bind, wrap, lift, ret.
  destruct (FetchToolsetManifest W _ st) as [st1 r]. simpl in Hfetch. subst r.
  by rewrite Hreg.
Qed.

Lemma no_endpoint_is_a_call_time_error W c t input st :
  selectEndpoint t = "" ->
  (ExecuteToolRequest W c t input st).2 = Err (ErrNoInvokeEndpoint (Name t))
  ∧ sent (ExecuteToolRequest W c t input st).1 = sent st.
Proof.
  intros He. apply (ExecuteToolRequest_not_prepared _ _ _ _ _ (set_deferred [] st)).
  unfold prepareRequest. by rewrite He.
Qed.

(** C1, as stated, fails: the manifest of the stub holds a tool without an
    invocation target and a tool without a name; it is fetched, the server
    is built with both tools registered, and the first can never be
    invoked. *)
Lemma server_is_built_with_a_tool_that_cannot_be_invoked :
  let W := Stub.world (Stub.answers 200 Stub.manifestBody) in
  (FetchToolsetManifest W Stub.client Sys0).2
  = Ok {| Namespace := "ns"; ManifestName := "ts"; Generation := 1;
          Tools := [Stub.orphan; Stub.nameless] |}
  ∧ (∃ srv, (NewServer W "http://stub/manifest" "secret" Sys0).2 = Ok srv
            ∧ tools srv = [Stub.orphan; Stub.nameless]
            ∧ is_Some (mcpServer srv !! "orphan"))
  ∧ ∀ input st, (ExecuteToolRequest W Stub.client Stub.orphan input st).2
                = Err (ErrNoInvokeEndpoint "orphan").
Proof.
  intros W.
  assert (Hfetch : (FetchToolsetManifest W Stub.client Sys0).2
                   = Ok {| Namespace := "ns"; ManifestName := "ts"; Generation := 1;
                           Tools := [Stub.orphan; Stub.nameless] |})
    by (vm_compute; reflexivity).
  split; [exact Hfetch|]. split.
  - destruct (registerToolHandlers_accepts W Stub.client [Stub.orphan; Stub.nameless] ∅)
      as (reg & Hreg & Hin & _).
    { repeat constructor. }
    eexists. split; [exact (NewServer_after_fetch W _ _ _ _ _ Hfetch Hreg)|].
    split; [done|]. apply (Hin Stub.orphan). apply elem_of_cons. by left.
  - intros input st. by apply no_endpoint_is_a_call_time_error.
Qed.

(** C1, amended. A manifest whose envelope reports success is converted
    record by record, with no check of a tool's name or invocation target
    (a missing string is the empty string); the server is then built, with
    every tool registered, as soon as every tool's input schema can be
    described. A tool whose selected endpoint is empty is refused when it
    is called: [ExecuteToolRequest] fails with the missing-endpoint error
    (the specification's ConfigError) and sends no request. *)
Theorem manifest_tools_are_checked_at_call_time W url key st resp body response :
  NewRequest_error W "GET" url = None ->
  Do W (manifestRequest (NewAPIClient url key)) = Ok resp ->
  StatusCode resp = StatusOK ->
  ReadAll resp = Ok body ->
  ManifestResponse.Unmarshal body = Ok response ->
  ManifestResponse.IsSuccess response = true ->
  (FetchToolsetManifest W (NewAPIClient url key) st).2 = Ok (manifestOf response)
  ∧ length (Tools (manifestOf response))
    = length (ManifestResponse.Tools (ManifestResponse.Data response))
  ∧ (Forall (fun t => is_ok (describeTool W t) = true) (Tools (manifestOf response)) ->
     ∃ srv, (NewServer W url key st).2 = Ok srv
            ∧ tools srv = Tools (manifestOf response)
            ∧ ∀ t, t ∈ Tools (manifestOf response) -> is_Some (mcpServer srv !! Name t))
  ∧ (∀ t input st',
       selectEndpoint t = "" ->
       (ExecuteToolRequest W (NewAPIClient url key) t input st').2
       = Err (ErrNoInvokeEndpoint (Name t))
       ∧ sent (ExecuteToolRequest W (NewAPIClient url key) t input st').1 = sent st').
Proof.
  intros Hnew Hdo Hst Hread Hdec Hflag.
  pose proof (FetchToolsetManifest_accepts W (NewAPIClient url key) st _ _ _
                Hnew Hdo Hst Hread Hdec Hflag) as Hfetch.
  split; [exact Hfetch|]. split; [apply length_map|]. split.
  - intros Hall.
    destruct (registerToolHandlers_accepts W (NewAPIClient url key) _ ∅ Hall)
      as (reg & Hreg & Hin & _).
    eexists. split; [exact (NewServer_after_fetch W _ _ _ _ _ Hfetch Hreg)|]. done.
  - intros t input st' He. by apply no_endpoint_is_a_call_time_error.
Qed.

Lemma manifest_tools_are_checked_at_call_time_witness :
  let W := Stub.world (Stub.answers 200 Stub.manifestBody) in
  (∃ srv, (NewServer W "http://stub/manifest" "secret" Sys0).2 = Ok srv
          ∧ tools srv = [Stub.orphan; Stub.nameless])
  ∧ (ExecuteToolRequest W Stub.client Stub.orphan "{}" Sys0).2
    = Err (ErrNoInvokeEndpoint "orphan").
Proof.
  intros W.
  destruct (manifest_tools_are_checked_at_call_time W "http://stub/manifest" "secret" Sys0
              {| StatusCode := 200; ReadAll := Ok Stub.manifestBody |} Stub.manifestBody
              {| ManifestResponse.IsSuccess := true;
                 ManifestResponse.Data :=
                   {| ManifestResponse.Namespace := "ns";
                      ManifestResponse.DataName := "ts";
                      ManifestResponse.Generation := 1;
                      ManifestResponse.Tools :=
                        [{| ManifestResponse.Name := "orphan";
                            ManifestResponse.Description := "no endpoint";
                            ManifestResponse.InputSchema := Some (dq "{'type':'object'}");
                            ManifestResponse.AllowUploadFiles := false;
                            ManifestResponse.InvokeEndpoints :=
                              ManifestResponse.zero_endpoints |};
                         {| ManifestResponse.Name := "";
                            ManifestResponse.Description := "no name";
                            ManifestResponse.InputSchema := Some "{}";
                            ManifestResponse.AllowUploadFiles := false;
                            ManifestResponse.InvokeEndpoints :=
                              {| ManifestResponse.Json := "http://stub/x";
                                 ManifestResponse.Form := "" |} |}] |};
                 ManifestResponse.Error := None;
                 ManifestResponse.ErrorCode := None |})
    as (_ & _ & Hsrv & Hcall).
  - reflexivity.
  - reflexivity.
  - reflexivity.
  - reflexivity.
  - vm_compute; reflexivity.
  - reflexivity.
  - split.
    + destruct Hsrv as (srv & Hok & Htools & _); [repeat constructor|].
      exists srv. by split.
    + exact (proj1 (Hcall Stub.orphan "{}" Sys0 eq_refl)).
Defined.

(** ** Registration and the exposed schemas *)

Lemma augmentSchema_follows_the_rule up declared :
  properties_is_object declared ->
  augmentSchema up (Some declared) = Some (augmentationRule up declared).
Proof.
  intros Hprops. unfold augmentSchema, augmentationRule, defaultType, declaredProperties.
  assert (Hty : ∀ m : gmap string value,
            (<["type" := VStr "object"]> m) !! "properties" = m !! "properties")
    by (intros m; by rewrite lookup_insert_ne).
  destruct up.
  - destruct (declared !! "type") as [ty|] eqn:Ht; rewrite ?Hty;
      (destruct (declared !! "properties") as [pv|] eqn:Hp;
       [ destruct (Hprops pv Hp) as [props ->]; rewrite ?Hty, Hp; done
       | rewrite lookup_insert_eq, insert_insert_eq; done ]).
  - by destruct (declared !! "type").
Qed.

(** What the rule says, key by key. *)
Lemma augmentationRule_type up declared :
  augmentationRule up declared !! "type"
  = Some (default (VStr "object") (declared !! "type")).
Proof.
  unfold augmentationRule, defaultType.
  destruct up; rewrite ?lookup_insert_ne by done;
    (destruct (declared !! "type") eqn:Ht; [by rewrite Ht | by rewrite lookup_insert_eq]).
Qed.

Lemma augmentationRule_not_upload declared k :
  k ≠ "type" ->
  augmentationRule false declared !! k = declared !! k.
Proof.
  intros Hk. unfold augmentationRule, defaultType.
  destruct (declared !! "type"); [done|]. by rewrite lookup_insert_ne.
Qed.

Lemma augmentationRule_upload declared :
  (∃ props, augmentationRule true declared !! "properties" = Some (VObj props)
            ∧ props !! UploadedFilePathsFieldName = Some UploadedFilePathsSchema
            ∧ ∀ k, k ≠ UploadedFilePathsFieldName ->
                   props !! k = declaredProperties declared !! k)
  ∧ ∀ k, k ≠ "type" -> k ≠ "properties" ->
         augmentationRule true declared !! k = declared !! k.
Proof.
  unfold augmentationRule. split.
  - eexists. rewrite lookup_insert_eq. split; [done|]. split.
    + by rewrite lookup_insert_eq.
    + intros k Hk. by rewrite lookup_insert_ne.
  - intros k Ht Hp. rewrite lookup_insert_ne by done. unfold defaultType.
    destruct (declared !! "type"); [done|]. by rewrite lookup_insert_ne.
Qed.

Example reserved_field_is_an_array_of_strings :
  ∃ fields items,
    UploadedFilePathsSchema = VObj fields
    ∧ fields !! "type" = Some (VStr "array")
    ∧ fields !! "description" = Some (VStr "List of file paths to be uploaded")
    ∧ fields !! "items" = Some (VObj items)
    ∧ items !! "type" = Some (VStr "string").
Proof. eexists _, _. repeat split; vm_compute; reflexivity. Qed.

Lemma describeTool_valid W t declared :
  marshals W ->
  declaredSchema W t declared ->
  properties_is_object declared ->
  ∃ text, Marshal W (VObj (augmentationRule (AllowUploadFiles t) declared)) = Ok text
          ∧ describeTool W t
            = Ok {| ToolName := Name t; ToolDescription := Description t;
                    RawInputSchema := text |}.
Proof.
  intros Hm Hdec Hprops.
  destruct (Hm (VObj (augmentationRule (AllowUploadFiles t) declared))) as [text Htext].
  exists text. split; [done|].
  unfold describeTool. unfold declaredSchema in Hdec. rewrite Hdec.
  rewrite (augmentSchema_follows_the_rule _ _ Hprops). simpl. by rewrite Htext.
Qed.

Lemma registerToolHandlers_exposes W c tools : ∀ reg0,
  NoDup (List.map Name tools) ->
  Forall (fun t => ∃ mt, describeTool W t = Ok mt) tools ->
  (∀ t, t ∈ tools -> reg0 !! Name t = None) ->
  ∃ reg, registerToolHandlers W c tools reg0 = Ok reg
         ∧ size reg = size reg0 + length tools
         ∧ (∀ t mt, t ∈ tools -> describeTool W t = Ok mt ->
                    reg !! Name t = Some {| McpToolOf := mt; Handler := handler W c t |})
         ∧ (∀ k, k ∉ List.map Name tools -> reg !! k = reg0 !! k).
Proof.
  induction tools as [|t tools IH]; intros reg0 Hnd Hall Hfresh.
  - exists reg0. simpl. split; [done|]. split; [lia|]. split; [|done].
    intros t mt Ht. by apply elem_of_nil in Ht.
  - simpl in Hnd. apply NoDup_cons in Hnd as [Hnotin Hnd].
    inversion Hall as [|? ? [mt Hd] Hall']; subst. simpl. rewrite Hd.
    pose proof (describeTool_name _ _ _ Hd) as Hname.
    destruct (IH (<[ToolName mt := {| McpToolOf := mt; Handler := handler W c t |}]> reg0)
                Hnd Hall') as (reg & Hreg & Hsize & Hlook & Hkeep).
    { intros t' Ht'. rewrite Hname, lookup_insert_ne.
      - apply Hfresh. apply elem_of_cons. by right.
      - intros Heq. apply Hnotin. rewrite Heq. apply list_elem_of_In, in_map.
        by apply list_elem_of_In. }
    exists reg. split; [done|]. split; [|split].
    + rewrite Hsize, Hname, map_size_insert_None; [lia|].
      apply Hfresh. apply elem_of_cons. by left.
    + intros t' mt' Ht' Hd'. apply elem_of_cons in Ht' as [->|Ht']; [|by apply Hlook].
      rewrite Hd in Hd'. injection Hd' as <-.
      rewrite Hkeep by done. by rewrite Hname, lookup_insert_eq.
    + intros k Hk. rewrite Hkeep.
      * rewrite Hname, lookup_insert_ne; [done|].
        intros <-. apply Hk. apply elem_of_cons. by left.
      * intros Hin. apply Hk. apply elem_of_cons. by right.
Qed.

(** C6. For a manifest of N valid tools with distinct names, registration
    succeeds and exposes exactly N tools; the schema exposed for each is
    the serialization of its declared schema changed by the augmentation
    rule, and by nothing else. *)
Theorem registration_exposes_every_tool_with_its_augmented_schema W c tools :
  marshals W ->
  NoDup (List.map Name tools) ->
  Forall (valid_tool W) tools ->
  ∃ reg, registerToolHandlers W c tools ∅ = Ok reg
         ∧ size reg = length tools
         ∧ ∀ t, t ∈ tools ->
                ∃ declared text,
                  declaredSchema W t declared
                  ∧ Marshal W (VObj (augmentationRule (AllowUploadFiles t) declared)) = Ok text
                  ∧ reg !! Name t = Some (entryOf W c t text).
Proof.
  intros Hm Hnd Hvalid.
  destruct (registerToolHandlers_exposes W c tools ∅ Hnd) as (reg & Hreg & Hsize & Hlook & _).
  { eapply Forall_impl; [exact Hvalid|]. intros t (declared & Hdec & Hprops).
    destruct (describeTool_valid W t declared Hm Hdec Hprops) as (text & _ & Hd). eauto. }
  { intros t _. apply lookup_empty. }
  exists reg. split; [done|]. split; [by rewrite Hsize, map_size_empty|].
  intros t Ht.
  pose proof (proj1 (Forall_forall _ _) Hvalid t Ht) as (declared & Hdec & Hprops).
  destruct (describeTool_valid W t declared Hm Hdec Hprops) as (text & Htext & Hd).
  exists declared, text. split; [done|]. split; [done|].
  exact (Hlook t _ Ht Hd).
Qed.

Lemma stub_marshals respond : marshals (Stub.world respond).
Proof. intros v. by eexists. Qed.

Lemma stub_tools_are_valid respond :
  Forall (valid_tool (Stub.world respond)) [Stub.jsonTool; Stub.uploadTool].
Proof.
  assert (Hempty : properties_is_object ∅).
  { intros v Hv. by rewrite lookup_empty in Hv. }
  repeat constructor; exists ∅; (split; [vm_compute; reflexivity | exact Hempty]).
Qed.

Lemma registration_exposes_every_tool_with_its_augmented_schema_witness :
  let W := Stub.world Stub.unreachable in
  ∃ reg, registerToolHandlers W Stub.client [Stub.jsonTool; Stub.uploadTool] ∅ = Ok reg
         ∧ size reg = 2.
Proof.
  intros W.
  destruct (registration_exposes_every_tool_with_its_augmented_schema W Stub.client
              [Stub.jsonTool; Stub.uploadTool])
    as (reg & Hreg & Hsize & _).
  - apply stub_marshals.
  - repeat constructor; simpl; intros H;
      repeat (apply elem_of_cons in H as [H|H]; [discriminate|]); by apply elem_of_nil in H.
  - apply stub_tools_are_valid.
  - exists reg. by split.
Defined.

Example exposed_schema_of_a_plain_tool :
  describeTool (Stub.world Stub.unreachable) Stub.jsonTool
  = Ok {| ToolName := "echo"; ToolDescription := "echoes its arguments";
          RawInputSchema := dq "{'type':'object'}" |}.
Proof. vm_compute; reflexivity. Qed.

Example exposed_schema_of_an_upload_tool :
  describeTool (Stub.world Stub.unreachable) Stub.uploadTool
  = Ok {| ToolName := "upload"; ToolDescription := "stores files";
          RawInputSchema :=
            dq ("{'properties':{'_uploaded_file_paths':{"
                ++ "'description':'List of file paths to be uploaded',"
                ++ "'items':{'description':'Path to the uploaded file','type':'string'},"
                ++ "'type':'array'}},'type':'object'}") |}.
Proof. vm_compute; reflexivity. Qed.

(** Outside the valid manifests: a schema that is the literal null is
    exposed as null, and a tool without a schema stops registration. *)
Example null_schema_is_left_alone :
  describeTool (Stub.world Stub.unreachable)
    {| Name := "t"; Description := ""; InputSchema := Some "null";
       AllowUploadFiles := true;
       InvokeEndpoints := {| Json := ""; Form := "http://stub/upload" |} |}
  = Ok {| ToolName := "t"; ToolDescription := ""; RawInputSchema := "null" |}.
Proof. vm_compute; reflexivity. Qed.

Example missing_schema_stops_registration :
  registerToolHandlers (Stub.world Stub.unreachable) Stub.client
    [{| Name := "t"; Description := ""; InputSchema := None; AllowUploadFiles := false;
        InvokeEndpoints := {| Json := "http://stub/x"; Form := "" |} |}] ∅
  = Err (ErrParseInputSchema "t" (JsonError SyntaxError)).
Proof. reflexivity. Qed.

(** ** The per-tool handler *)

(** C7. Whatever happens on the invocation path, the handler returns a
    tool result and no error of its own; when marshalling the arguments,
    the remote invocation or the re-parsing of the result fails, the result
    is an error result whose text says what failed. *)
Theorem handler_turns_failures_into_tool_results W c tool arguments st :
  ∃ st' res,
    handler W c tool arguments st = (st', (res, None))
    ∧ (∀ msg, Marshal W arguments = Err msg ->
              res = NewToolResultError ("Failed to marshal arguments: " ++ msg))
    ∧ (∀ argsJSON err,
         Marshal W arguments = Ok argsJSON ->
         (ExecuteToolRequest W c tool argsJSON st).2 = Err err ->
         res = NewToolResultError ("Tool execution failed: " ++ Error err))
    ∧ (∀ argsJSON responseJSON e,
         Marshal W arguments = Ok argsJSON ->
         (ExecuteToolRequest W c tool argsJSON st).2 = Ok responseJSON ->
         unmarshal_with (into_any (float_ok W)) responseJSON = Err e ->
         res = NewToolResultError ("Failed to parse tool response: " ++ json_error_text e))
    ∧ (IsError res = true -> ∃ text, res = NewToolResultError text).
Proof.
  unfold handler.
  destruct (Marshal W arguments) as [argsJSON|msg] eqn:Hm.
  - destruct (ExecuteToolRequest W c tool argsJSON st) as [st' [responseJSON|err]] eqn:Hex.
    + destruct (unmarshal_with (into_any (float_ok W)) responseJSON) as [obj|e] eqn:Hp.
      * destruct (MarshalIndent W obj) as [text|msg] eqn:Hi;
          eexists _, _; (split; [reflexivity|]);
          (split; [intros ? [=]|]);
          (split; [intros ? ? [= <-]; rewrite Hex; intros [=]|]);
          (split; [intros ? ? ? [= <-]; rewrite Hex; intros [= <-]; rewrite Hp; intros [=]|]);
          [intros [=] | eauto].
      * eexists _, _. split; [reflexivity|].
        split; [intros ? [=]|].
        split; [intros ? ? [= <-]; rewrite Hex; intros [=]|].
        split; [intros ? ? ? [= <-]; rewrite Hex; intros [= <-]; rewrite Hp; by intros [= <-]|].
        eauto.
    + eexists _, _. split; [reflexivity|].
      split; [intros ? [=]|].
      split; [intros ? ? [= <-]; rewrite Hex; by intros [= <-]|].
      split; [intros ? ? ? [= <-]; rewrite Hex; intros [=]|].
      eauto.
  - eexists _, _. split; [reflexivity|].
    split; [by intros ? [= <-]|].
    split; [intros ? ? [=]|].
    split; [intros ? ? ? [=]|].
    eauto.
Qed.

Lemma handler_turns_failures_into_tool_results_witness :
  let W := Stub.world Stub.unreachable in
  (handler W Stub.client Stub.jsonTool (VObj ∅) Sys0).2
  = (NewToolResultError
       "Tool execution failed: failed to execute request: connection refused", None).
Proof.
  intros W.
  destruct (handler_turns_failures_into_tool_results W Stub.client Stub.jsonTool (VObj ∅) Sys0)
    as (st' & res & Hrun & _ & Hexec & _).
  rewrite Hrun. simpl. f_equal.
  exact (Hexec "{}" (ErrExecuteRequest (LibError "connection refused")) eq_refl eq_refl).
Defined.

Example handler_reports_an_unparsable_result :
  (handler (Stub.world (Stub.answers 200 "plain text")) Stub.client Stub.jsonTool
     (VObj ∅) Sys0).2
  = (NewToolResultError "Failed to parse tool response: json: syntax error", None).
Proof. vm_compute; reflexivity. Qed.

Example handler_returns_the_data_as_text :
  (handler (Stub.world (Stub.answers 200 (dq "{'isSuccess':true,'data':{'a':1}}")))
     Stub.client Stub.jsonTool (VObj ∅) Sys0).2
  = (NewToolResultText (dq "{'a':1}"), None).
Proof. vm_compute; reflexivity. Qed.

(* ================================================================== *)
(** * Further properties of the code                                    *)
(* ================================================================== *)

(** ** [FetchToolsetManifest] *)

Lemma FetchToolsetManifest_run W c st :
  NewRequest_error W "GET" (baseURL c) = None ->
  (FetchToolsetManifest W c st).2 =
    match Do W (manifestRequest c) with
    | Err msg => Err (ErrExecuteRequest (LibError msg))
    | Ok resp =>
        match ReadAll resp with
        | Err msg => Err (ErrReadBody (LibError msg))
        | Ok body =>
            if negb (Z.eqb (StatusCode resp) StatusOK)
            then Err (ErrUnexpectedStatus (StatusCode resp) body)
            else match ManifestResponse.Unmarshal body with
                 | Err e => Err (ErrUnmarshalResponse (JsonError e))
                 | Ok response =>
                     if negb (ManifestResponse.IsSuccess response)
                     then Err (ErrAPI (default "unknown error"
                                         (ManifestResponse.Error response)))
                     else Ok (manifestOf response)
                 end
        end
    end.
Proof.
  intros Hnew. unfold FetchToolsetManifest. rewrite snd_func.
  unfold bind, wrap, http_NewRequest, client_Do, io_ReadAll, fail, ret.
  rewrite Hnew. simpl. fold (manifestRequest c).
  destruct (Do W (manifestRequest c)) as [resp|msg]; [|done].
  destruct (ReadAll resp) as [body|msg]; [|done].
  destruct (negb _); [done|].
  destruct (ManifestResponse.Unmarshal body) as [response|e]; [|done].
  by destruct (negb _).
Qed.

Lemma FetchToolsetManifest_sent W c st :
  sent (FetchToolsetManifest W c st).1 =
    match NewRequest_error W "GET" (baseURL c) with
    | Some _ => sent st
    | None => (sent st ++ [manifestRequest c])%list
    end.
Proof.
  unfold FetchToolsetManifest. rewrite sent_func.
  unfold bind, wrap, http_NewRequest, client_Do, io_ReadAll, fail, ret.
  destruct (NewRequest_error W "GET" (baseURL c)) as [msg|]; [done|].
  simpl. fold (manifestRequest c).
  destruct (Do W (manifestRequest c)) as [resp|msg]; [|done].
  destruct (ReadAll resp) as [body|msg]; [|done].
  destruct (negb _); [done|].
  destruct (ManifestResponse.Unmarshal body) as [response|e]; [|done].
  by destruct (negb _).
Qed.

(** X1. A fetch hands the HTTP client exactly one request, whatever the
    answer is: a GET of the base URL without a body, with the two headers
    [Accept: application/json] and [X-Api-Key: <key>] and no other. When
    the request cannot be created, nothing is sent and the fetch fails. *)
Theorem manifest_fetch_sends_one_GET W c st :
  match NewRequest_error W "GET" (baseURL c) with
  | Some msg =>
      (FetchToolsetManifest W c st).2 = Err (ErrCreateRequest (LibError msg))
      ∧ sent (FetchToolsetManifest W c st).1 = sent st
  | None =>
      ∃ req, sent (FetchToolsetManifest W c st).1 = (sent st ++ [req])%list
             ∧ Method req = "GET" ∧ URL req = baseURL c ∧ Body req = ""
             ∧ Header req !! "Accept" = Some ["application/json"]
             ∧ Header req !! "X-Api-Key" = Some [apiKey c]
             ∧ size (Header req) = 2
  end.
Proof.
  pose proof (FetchToolsetManifest_sent W c st) as Hsent.
  destruct (NewRequest_error W "GET" (baseURL c)) as [msg|] eqn:Hnew.
  - split; [|done]. unfold FetchToolsetManifest. rewrite snd_func.
    unfold bind, wrap, http_NewRequest, fail. by rewrite Hnew.
  - exists (manifestRequest c). split; [done|].
    unfold manifestRequest, Header_Set; simpl.
    change (canonical true "X-API-KEY") with "X-Api-Key".
    change (canonical true "accept") with "Accept".
    repeat split.
Qed.

(** X2. A fetch succeeds exactly when the client answers with status 200,
    a readable body that decodes as the manifest envelope, and a true
    success flag. *)
Theorem manifest_fetch_succeeds_iff W c st :
  NewRequest_error W "GET" (baseURL c) = None ->
  (is_ok (FetchToolsetManifest W c st).2 = true
   ↔ ∃ resp body response,
       Do W (manifestRequest c) = Ok resp
       ∧ StatusCode resp = StatusOK
       ∧ ReadAll resp = Ok body
       ∧ ManifestResponse.Unmarshal body = Ok response
       ∧ ManifestResponse.IsSuccess response = true).
Proof.
  intros Hnew. rewrite (FetchToolsetManifest_run W c st Hnew). split.
  - destruct (Do W (manifestRequest c)) as [resp|msg] eqn:Hdo; [|done].
    destruct (ReadAll resp) as [body|msg] eqn:Hread; [|done].
    destruct (Z.eqb_spec (StatusCode resp) StatusOK) as [Hst|Hst]; [|done]. simpl.
    destruct (ManifestResponse.Unmarshal body) as [response|e] eqn:Hdec; [|done].
    destruct (ManifestResponse.IsSuccess response) eqn:Hflag; [|done].
    intros _. by exists resp, body, response.
  - intros (resp & body & response & -> & Hst & -> & -> & ->).
    by rewrite Hst.
Qed.

Lemma manifest_fetch_succeeds_iff_witness :
  let W := Stub.world (Stub.answers 200 Stub.manifestBody) in
  is_ok (FetchToolsetManifest W Stub.client Sys0).2 = true
  ↔ ∃ resp body response,
      Do W (manifestRequest Stub.client) = Ok resp
      ∧ StatusCode resp = StatusOK
      ∧ ReadAll resp = Ok body
      ∧ ManifestResponse.Unmarshal body = Ok response
      ∧ ManifestResponse.IsSuccess response = true.
Proof.
  intros W. exact (manifest_fetch_succeeds_iff W Stub.client Sys0 eq_refl).
Defined.

(** X3. A manifest answer with a status other than 200 fails the fetch with
    the status and the raw body, whatever the body holds. *)
Theorem manifest_fetch_rejects_non_200 W c st resp body :
  NewRequest_error W "GET" (baseURL c) = None ->
  Do W (manifestRequest c) = Ok resp ->
  ReadAll resp = Ok body ->
  StatusCode resp ≠ StatusOK ->
  (FetchToolsetManifest W c st).2 = Err (ErrUnexpectedStatus (StatusCode resp) body).
Proof.
  intros Hnew Hdo Hread Hst. rewrite (FetchToolsetManifest_run W c st Hnew), Hdo, Hread.
  by destruct (Z.eqb_spec (StatusCode resp) StatusOK).
Qed.

Lemma manifest_fetch_rejects_non_200_witness :
  let W := Stub.world (Stub.answers 503 Stub.manifestBody) in
  (FetchToolsetManifest W Stub.client Sys0).2
  = Err (ErrUnexpectedStatus 503 Stub.manifestBody).
Proof.
  intros W.
  exact (manifest_fetch_rejects_non_200 W Stub.client Sys0
           {| StatusCode := 503; ReadAll := Ok Stub.manifestBody |} Stub.manifestBody
           eq_refl eq_refl eq_refl ltac:(discriminate)).
Defined.

(** X4. Unlike an invocation, a fetch does not pass an undecodable body
    through: a 200 body that does not decode as the manifest envelope is a
    decode error, and one that decodes without a true success flag is the
    API error with the envelope's error string, or "unknown error". *)
Theorem manifest_fetch_requires_a_successful_envelope W c st resp body :
  NewRequest_error W "GET" (baseURL c) = None ->
  Do W (manifestRequest c) = Ok resp ->
  ReadAll resp = Ok body ->
  StatusCode resp = StatusOK ->
  (∀ e, ManifestResponse.Unmarshal body = Err e ->
        (FetchToolsetManifest W c st).2 = Err (ErrUnmarshalResponse (JsonError e)))
  ∧ (∀ response,
       ManifestResponse.Unmarshal body = Ok response ->
       ManifestResponse.IsSuccess response = false ->
       (FetchToolsetManifest W c st).2
       = Err (ErrAPI (default "unknown error" (ManifestResponse.Error response)))).
Proof.
  intros Hnew Hdo Hread Hst.
  rewrite (FetchToolsetManifest_run W c st Hnew), Hdo, Hread, Hst. simpl.
  split; [by intros e ->|]. by intros response -> ->.
Qed.

Lemma manifest_fetch_requires_a_successful_envelope_witness :
  (FetchToolsetManifest (Stub.world (Stub.answers 200 "plain text")) Stub.client Sys0).2
  = Err (ErrUnmarshalResponse (JsonError SyntaxError))
  ∧ (FetchToolsetManifest
       (Stub.world (Stub.answers 200 (dq "{'isSuccess':false,'error':'no such toolset'}")))
       Stub.client Sys0).2
    = Err (ErrAPI "no such toolset").
Proof.
  split.
  - refine (proj1 (manifest_fetch_requires_a_successful_envelope
                     (Stub.world (Stub.answers 200 "plain text")) Stub.client Sys0
                     {| StatusCode := 200; ReadAll := Ok "plain text" |} "plain text"
                     eq_refl eq_refl eq_refl eq_refl) SyntaxError _).
    vm_compute; reflexivity.
  - refine (proj2 (manifest_fetch_requires_a_successful_envelope
                     (Stub.world (Stub.answers 200
                                    (dq "{'isSuccess':false,'error':'no such toolset'}")))
                     Stub.client Sys0
                     {| StatusCode := 200;
                        ReadAll := Ok (dq "{'isSuccess':false,'error':'no such toolset'}") |}
                     _ eq_refl eq_refl eq_refl eq_refl)
              {| ManifestResponse.IsSuccess := false;
                 ManifestResponse.Data := ManifestResponse.zero_data;
                 ManifestResponse.Error := Some "no such toolset";
                 ManifestResponse.ErrorCode := None |} _ eq_refl).
    vm_compute; reflexivity.
Defined.

(** ** [NewServer] and [registerToolHandlers] *)

Lemma NewServer_run W url key st :
  NewServer W url key st =
    match FetchToolsetManifest W (NewAPIClient url key) st with
    | (st1, Err e) => (st1, Err (ErrFetchManifest e))
    | (st1, Ok manifest) =>
        match registerToolHandlers W (NewAPIClient url key) (Tools manifest) ∅ with
        | Err e => (st1, Err (ErrRegisterHandlers e))
        | Ok reg =>
            (st1, Ok {| endpointURL := url; serverApiKey := key; tools := Tools manifest;
                        apiClient := NewAPIClient url key; mcpServer := reg |})
        end
    end.
Proof.
  unfold NewServer, bind, wrap, lift, ret.
  destruct (FetchToolsetManifest W _ st) as [st1 [manifest|e]]; [|done].
  by destruct (registerToolHandlers W _ _ ∅).
Qed.

(** X5. Building the server has no effect but the fetch: it leaves the
    state the fetch leaves (so it sends that one request and opens no
    file), and a failed fetch is reported as the failure of the
    construction, with the cause kept. *)
Theorem new_server_does_nothing_but_fetch W url key st :
  (NewServer W url key st).1 = (FetchToolsetManifest W (NewAPIClient url key) st).1
  ∧ ∀ e, (FetchToolsetManifest W (NewAPIClient url key) st).2 = Err e ->
         (NewServer W url key st).2 = Err (ErrFetchManifest e).
Proof.
  rewrite NewServer_run.
  destruct (FetchToolsetManifest W _ st) as [st1 [manifest|e]]; simpl.
  - split; [|done]. by destruct (registerToolHandlers W _ _ ∅).
  - split; [done|]. by intros e' [= <-].
Qed.

Lemma new_server_does_nothing_but_fetch_witness :
  let W := Stub.world Stub.unreachable in
  (NewServer W "http://stub/manifest" "secret" Sys0).2
  = Err (ErrFetchManifest (ErrExecuteRequest (LibError "connection refused")))
  ∧ Error (ErrFetchManifest (ErrExecuteRequest (LibError "connection refused")))
    = "failed to fetch toolset manifest: failed to execute request: connection refused".
Proof.
  intros W. split; [|reflexivity].
  exact (proj2 (new_server_does_nothing_but_fetch W "http://stub/manifest" "secret" Sys0)
           _ eq_refl).
Defined.

Lemma registerToolHandlers_stops W c good t rest e : ∀ reg0,
  Forall (fun t => is_ok (describeTool W t) = true) good ->
  describeTool W t = Err e ->
  registerToolHandlers W c (good ++ t :: rest)%list reg0 = Err e.
Proof.
  induction good as [|g good IH]; intros reg0 Hgood Hbad; simpl.
  - by rewrite Hbad.
  - inversion Hgood as [|? ? Hg Hgood']; subst.
    destruct (describeTool W g); [|done]. by apply IH.
Qed.

(** X6. Registration stops at the first tool whose input schema does not
    decode into a map (a missing schema, a schema that is not JSON, a JSON
    array or scalar): the server is not built, and the error names that
    tool. *)
Theorem new_server_names_the_first_bad_schema W url key st manifest good t rest je :
  (FetchToolsetManifest W (NewAPIClient url key) st).2 = Ok manifest ->
  Tools manifest = (good ++ t :: rest)%list ->
  Forall (fun t => is_ok (describeTool W t) = true) good ->
  unmarshal_with (into_map (float_ok W) None) (bytes_of (InputSchema t)) = Err je ->
  (NewServer W url key st).2
  = Err (ErrRegisterHandlers (ErrParseInputSchema (Name t) (JsonError je))).
Proof.
  intros Hfetch Htools Hgood Hbad. rewrite NewServer_run.
  destruct (FetchToolsetManifest W _ st) as [st1 r]. simpl in Hfetch. subst r.
  rewrite Htools.
  rewrite (registerToolHandlers_stops W _ good t rest
             (ErrParseInputSchema (Name t) (JsonError je))); [done|done|].
  unfold describeTool. by rewrite Hbad.
Qed.

Lemma new_server_names_the_first_bad_schema_witness :
  let body :=
    dq ("{'isSuccess':true,'data':{'tools':["
        ++ "{'name':'a','input_schema':{}},{'name':'b'},{'name':'c','input_schema':[]}]}}") in
  let W := Stub.world (Stub.answers 200 body) in
  (NewServer W "http://stub/manifest" "secret" Sys0).2
  = Err (ErrRegisterHandlers (ErrParseInputSchema "b" (JsonError SyntaxError))).
Proof.
  intros body W.
  refine (new_server_names_the_first_bad_schema W "http://stub/manifest" "secret" Sys0
            {| Namespace := ""; ManifestName := ""; Generation := 0;
               Tools := [ {| Name := "a"; Description := ""; InputSchema := Some "{}";
                             AllowUploadFiles := false;
                             InvokeEndpoints := {| Json := ""; Form := "" |} |};
                          {| Name := "b"; Description := ""; InputSchema := None;
                             AllowUploadFiles := false;
                             InvokeEndpoints := {| Json := ""; Form := "" |} |};
                          {| Name := "c"; Description := ""; InputSchema := Some "[]";
                             AllowUploadFiles := false;
                             InvokeEndpoints := {| Json := ""; Form := "" |} |} ] |}
            [_] _ [_] SyntaxError _ eq_refl _ _).
  - vm_compute; reflexivity.
  - repeat constructor.
  - reflexivity.
Defined.

(** X7. A successful envelope that lists no tool (no [data], no [tools], an
    empty list) is not an error: the server is built with an empty
    registry. *)
Theorem new_server_accepts_an_empty_manifest W url key st resp body response :
  NewRequest_error W "GET" url = None ->
  Do W (manifestRequest (NewAPIClient url key)) = Ok resp ->
  StatusCode resp = StatusOK ->
  ReadAll resp = Ok body ->
  ManifestResponse.Unmarshal body = Ok response ->
  ManifestResponse.IsSuccess response = true ->
  ManifestResponse.Tools (ManifestResponse.Data response) = [] ->
  ∃ srv, (NewServer W url key st).2 = Ok srv ∧ tools srv = [] ∧ mcpServer srv = ∅.
Proof.
  intros Hnew Hdo Hst Hread Hdec Hflag Hnone.
  pose proof (FetchToolsetManifest_accepts W (NewAPIClient url key) st _ _ _
                Hnew Hdo Hst Hread Hdec Hflag) as Hfetch.
  rewrite NewServer_run.
  destruct (FetchToolsetManifest W _ st) as [st1 r]. simpl in Hfetch. subst r.
  unfold manifestOf. rewrite Hnone. simpl. eauto.
Qed.

Lemma new_server_accepts_an_empty_manifest_witness :
  let W := Stub.world (Stub.answers 200 (dq "{'isSuccess':true}")) in
  ∃ srv, (NewServer W "http://stub/manifest" "secret" Sys0).2 = Ok srv
         ∧ tools srv = [] ∧ mcpServer srv = ∅.
Proof.
  intros W.
  refine (new_server_accepts_an_empty_manifest W "http://stub/manifest" "secret" Sys0
            {| StatusCode := 200; ReadAll := Ok (dq "{'isSuccess':true}") |} _
            {| ManifestResponse.IsSuccess := true;
               ManifestResponse.Data := ManifestResponse.zero_data;
               ManifestResponse.Error := None; ManifestResponse.ErrorCode := None |}
            eq_refl eq_refl eq_refl eq_refl _ eq_refl eq_refl).
  vm_compute; reflexivity.
Defined.

Lemma registerToolHandlers_lookup W c tools : ∀ reg0,
  Forall (fun t => is_ok (describeTool W t) = true) tools ->
  ∃ reg, registerToolHandlers W c tools reg0 = Ok reg
         ∧ ∀ k, reg !! k = match lastNamed k tools with
                           | Some t => registered W c t
                           | None => reg0 !! k
                           end.
Proof.
  induction tools as [|t tools IH]; intros reg0 Hall; simpl.
  - by exists reg0.
  - inversion Hall as [|? ? Ht Hall']; subst.
    destruct (describeTool W t) as [mt|e] eqn:Hd; [|done].
    destruct (IH (<[ToolName mt := {| McpToolOf := mt; Handler := handler W c t |}]> reg0)
                Hall') as (reg & Hreg & Hlook).
    exists reg. split; [done|]. intros k. rewrite Hlook.
    destruct (lastNamed k tools); [done|].
    rewrite (describeTool_name _ _ _ Hd).
    destruct (String.eqb_spec (Name t) k) as [->|Hne].
    + rewrite lookup_insert_eq. unfold registered. by rewrite Hd.
    + by rewrite lookup_insert_ne.
Qed.

(** X8. Tools are registered under their names, a later tool replacing an
    earlier one of the same name: after registration a name leads to the
    last tool of the manifest that carries it, and to nothing when no tool
    does. *)
Theorem registration_keeps_the_last_tool_of_a_name W c tools :
  Forall (fun t => is_ok (describeTool W t) = true) tools ->
  ∃ reg, registerToolHandlers W c tools ∅ = Ok reg
         ∧ ∀ k, reg !! k = match lastNamed k tools with
                           | Some t => registered W c t
                           | None => None
                           end.
Proof.
  intros Hall. destruct (registerToolHandlers_lookup W c tools ∅ Hall) as (reg & Hreg & Hlook).
  exists reg. split; [done|]. intros k. rewrite Hlook.
  destruct (lastNamed k tools); [done|]. apply lookup_empty.
Qed.

Lemma registration_keeps_the_last_tool_of_a_name_witness :
  let W := Stub.world Stub.unreachable in
  let first := Stub.jsonTool in
  let second :=
    {| Name := "echo"; Description := "another echo"; InputSchema := Some "{}";
       AllowUploadFiles := false;
       InvokeEndpoints := {| Json := "http://stub/echo2"; Form := "" |} |} in
  ∃ reg, registerToolHandlers W Stub.client [first; second] ∅ = Ok reg
         ∧ reg !! "echo" = registered W Stub.client second
         ∧ reg !! "other" = None.
Proof.
  intros W first second.
  destruct (registration_keeps_the_last_tool_of_a_name W Stub.client [first; second])
    as (reg & Hreg & Hlook).
  - repeat constructor.
  - exists reg. split; [done|]. split.
    + exact (Hlook "echo").
    + exact (Hlook "other").
Defined.

(** ** Schema augmentation *)

Lemma augmentSchema_cases up m :
  augmentSchema up (Some m) =
    Some (if up then
            match defaultType m !! "properties" with
            | None =>
                <["properties" :=
                    VObj (<[UploadedFilePathsFieldName := UploadedFilePathsSchema]> ∅)]>
                  (defaultType m)
            | Some (VObj props) =>
                <["properties" :=
                    VObj (<[UploadedFilePathsFieldName := UploadedFilePathsSchema]> props)]>
                  (defaultType m)
            | Some _ => defaultType m
            end
          else defaultType m).
Proof.
  unfold augmentSchema, defaultType.
  destruct up; [|by destruct (m !! "type")].
  destruct (m !! "type") as [ty|] eqn:Ht.
  - destruct (m !! "properties") as [pv|] eqn:Hp.
    + rewrite Hp. by destruct pv.
    + by rewrite lookup_insert_eq, insert_insert_eq.
  - destruct (<["type":=VStr "object"]> m !! "properties") as [pv|] eqn:Hp.
    + rewrite Hp. by destruct pv.
    + by rewrite lookup_insert_eq, insert_insert_eq.
Qed.

Lemma defaultType_idem m : defaultType (defaultType m) = defaultType m.
Proof.
  unfold defaultType. destruct (m !! "type") eqn:Ht; [by rewrite Ht|].
  by rewrite lookup_insert_eq.
Qed.

Lemma defaultType_insert_properties m v :
  defaultType (<["properties" := v]> (defaultType m))
  = <["properties" := v]> (defaultType m).
Proof.
  unfold defaultType at 1. rewrite lookup_insert_ne by done.
  unfold defaultType. destruct (m !! "type") eqn:Ht; [by rewrite Ht|].
  by rewrite lookup_insert_eq.
Qed.

(** X9. Augmenting a schema twice is augmenting it once, for every schema
    and both kinds of tool. *)
Theorem augmentSchema_is_idempotent up schema :
  augmentSchema up (augmentSchema up schema) = augmentSchema up schema.
Proof.
  destruct schema as [m|]; [|done].
  rewrite (augmentSchema_cases up m).
  destruct up.
  - destruct (defaultType m !! "properties") as [pv|] eqn:Hp.
    + destruct pv as [| | | |l|props];
        try (rewrite augmentSchema_cases, defaultType_idem, Hp; done).
      rewrite augmentSchema_cases, defaultType_insert_properties, lookup_insert_eq.
      by rewrite !insert_insert_eq.
    + rewrite augmentSchema_cases, defaultType_insert_properties, lookup_insert_eq.
      by rewrite !insert_insert_eq.
  - by rewrite augmentSchema_cases, defaultType_idem.
Qed.

(** X10. Augmentation keeps every declared top-level key other than
    [properties] with its value, the [type] included; it always leaves a
    [type]; it adds no key but [type] and [properties]; and for a tool
    without uploads it leaves [properties] as declared. *)
Theorem augmentSchema_keeps_the_declared_keys up m :
  ∃ m', augmentSchema up (Some m) = Some m'
        ∧ (∀ k v, k ≠ "properties" -> m !! k = Some v -> m' !! k = Some v)
        ∧ is_Some (m' !! "type")
        ∧ (∀ k, k ≠ "type" -> k ≠ "properties" -> m !! k = None -> m' !! k = None)
        ∧ (up = false -> m' !! "properties" = m !! "properties").
Proof.
  eexists. split; [apply augmentSchema_cases|].
  assert (Hdt : ∀ k, k ≠ "type" -> defaultType m !! k = m !! k).
  { intros k Hk. unfold defaultType. destruct (m !! "type"); [done|].
    by rewrite lookup_insert_ne. }
  assert (Hty : is_Some (defaultType m !! "type")).
  { unfold defaultType. destruct (m !! "type") eqn:Ht; [by rewrite Ht|].
    rewrite lookup_insert_eq. eauto. }
  assert (Hkeep : ∀ k v, m !! k = Some v -> defaultType m !! k = Some v).
  { intros k v Hk. unfold defaultType. destruct (m !! "type") eqn:Ht; [done|].
    rewrite lookup_insert_ne; [done|]. intros <-. congruence. }
  destruct up.
  - destruct (defaultType m !! "properties") as [pv|] eqn:Hp;
      [destruct pv|]; repeat split; try done; intros;
      rewrite ?lookup_insert_ne by done; auto; by rewrite Hdt.
  - repeat split; try done; intros; auto. by rewrite Hdt.
Qed.

(** X11. For an upload-capable tool, when [properties] is absent or an
    object, the exposed [properties] is that object (the empty one when
    absent) with the reserved field set to the fixed description, a
    declared description of that field being replaced, and every other
    property as declared. When [properties] is declared as anything else,
    it is left as it is and the reserved field is not described. *)
Theorem augmentSchema_properties_of_an_upload_tool m :
  ∃ m', augmentSchema true (Some m) = Some m'
        ∧ match m !! "properties" with
          | Some (VObj props) =>
              m' !! "properties"
              = Some (VObj (<[UploadedFilePathsFieldName := UploadedFilePathsSchema]> props))
          | None =>
              m' !! "properties"
              = Some (VObj (<[UploadedFilePathsFieldName := UploadedFilePathsSchema]> ∅))
          | Some v => m' !! "properties" = Some v
          end.
Proof.
  eexists. split; [apply augmentSchema_cases|]. simpl.
  assert (Hdt : defaultType m !! "properties" = m !! "properties").
  { unfold defaultType. destruct (m !! "type"); [done|]. by rewrite lookup_insert_ne. }
  rewrite Hdt.
  destruct (m !! "properties") as [pv|] eqn:Hp.
  - destruct pv; rewrite ?lookup_insert_eq; try done; by rewrite Hdt.
  - by rewrite lookup_insert_eq.
Qed.

(** ** [ExecuteToolRequest]: handles, requests, failures of the exchange *)

Lemma attachFiles_handles W vs : ∀ parts st,
  ∃ ds, deferred (attachFiles W parts vs st).1 = (ds ++ deferred st)%list
        ∧ open_fds (attachFiles W parts vs st).1 = (ds ++ open_fds st)%list.
Proof.
  induction vs as [|v vs IH]; intros parts st; simpl; [by exists []|].
  unfold bind, wrap, os_Open, defer_Close, io_Copy.
  destruct (files W (Sprintf_v W v)) as [msg|msg|content] eqn:Hf; [by exists []|..];
    simpl; rewrite DetectMime_run, Hf; unfold sniffed; rewrite Hf.
  - by exists [next_fd st].
  - destruct content as [|ch content]; [by exists [next_fd st]|]. simpl.
    match goal with |- context [attachFiles W ?p vs ?s] => destruct (IH p s) as (ds & Hd & Ho) end.
    exists (ds ++ [next_fd st])%list. rewrite Hd, Ho. simpl.
    by rewrite <- !app_assoc.
Qed.

Lemma prepareRequest_handles W c tool input st :
  ∃ ds, deferred (prepareRequest W c tool input st).1 = (ds ++ deferred st)%list
        ∧ open_fds (prepareRequest W c tool input st).1 = (ds ++ open_fds st)%list.
Proof.
  unfold prepareRequest. destruct (String.eqb _ _); [by exists []|].
  unfold bind.
  assert (Hbody : ∃ ds, deferred (prepareBody W tool input st).1 = (ds ++ deferred st)%list
                        ∧ open_fds (prepareBody W tool input st).1 = (ds ++ open_fds st)%list).
  { unfold prepareBody. destruct (AllowUploadFiles tool); [|by exists []].
    unfold bind.
    assert (Hparts : ∃ ds, deferred (multipartParts W input st).1 = (ds ++ deferred st)%list
                           ∧ open_fds (multipartParts W input st).1 = (ds ++ open_fds st)%list).
    { unfold multipartParts. destruct (unmarshal_with _ _) as [inputData|e]; [|by exists []].
      destruct (filePathsOf inputData); [apply attachFiles_handles|by exists []]. }
    destruct (multipartParts W input st) as [st1 [parts|e]]; simpl in *; exact Hparts. }
  destruct (prepareBody W tool input st) as [st1 [prepared|e]]; simpl in *; [|exact Hbody].
  unfold buildRequest, bind, wrap, http_NewRequest.
  destruct (NewRequest_error W _ _); simpl; exact Hbody.
Qed.

Lemma roundTrip_handles W req st :
  deferred (roundTrip W req st).1 = deferred st
  ∧ open_fds (roundTrip W req st).1 = open_fds st
  ∧ next_fd (roundTrip W req st).1 = next_fd st.
Proof.
  unfold roundTrip, bind, wrap, client_Do, io_ReadAll. simpl.
  destruct (Do W req) as [resp|msg]; [|done].
  destruct (ReadAll resp); [|done]. by destruct (negb _).
Qed.

Lemma close_all_releases ds : ∀ st old,
  open_fds st = (ds ++ old)%list ->
  open_fds (fold_left (fun s n => close_fd n s) ds st) = old.
Proof.
  induction ds as [|d ds IH]; intros st old H; simpl; [done|].
  apply IH. simpl. rewrite H. simpl. by rewrite Nat.eqb_refl.
Qed.

Lemma func_releases {A} (body : M A) st ds :
  deferred (body (set_deferred [] st)).1 = ds ->
  open_fds (body (set_deferred [] st)).1 = (ds ++ open_fds st)%list ->
  open_fds (func body st).1 = open_fds st ∧ deferred (func body st).1 = deferred st.
Proof.
  unfold func. destruct (body (set_deferred [] st)) as [st' r]. simpl.
  intros Hd Ho. split; [|done]. rewrite Hd. by apply close_all_releases.
Qed.

Lemma invocation_body_handles W c tool input st :
  ∃ ds, deferred ((let* req := prepareRequest W c tool input in roundTrip W req) st).1
        = (ds ++ deferred st)%list
        ∧ open_fds ((let* req := prepareRequest W c tool input in roundTrip W req) st).1
          = (ds ++ open_fds st)%list.
Proof.
  destruct (prepareRequest_handles W c tool input st) as (ds & Hd & Ho).
  exists ds. unfold bind.
  destruct (prepareRequest W c tool input st) as [st1 [req|e]]; simpl in *; [|done].
  destruct (roundTrip_handles W req st1) as (Hd' & Ho' & _). by rewrite Hd', Ho'.
Qed.

(** X12. An invocation releases every file handle it opens, on every
    return: the handles open afterwards are those open before, and no
    deferred call of the caller is lost or run. *)
Theorem invocation_releases_every_handle W c tool input st :
  open_fds (ExecuteToolRequest W c tool input st).1 = open_fds st
  ∧ deferred (ExecuteToolRequest W c tool input st).1 = deferred st.
Proof.
  unfold ExecuteToolRequest.
  destruct (invocation_body_handles W c tool input (set_deferred [] st)) as (ds & Hd & Ho).
  simpl in Hd, Ho. rewrite app_nil_r in Hd.
  exact (func_releases _ st ds Hd Ho).
Qed.

Lemma prepareBody_content_type W tool input st st1 prepared :
  prepareBody W tool input st = (st1, Ok prepared) ->
  prepared.2 = if AllowUploadFiles tool then FormDataContentType W else "application/json".
Proof.
  unfold prepareBody. destruct (AllowUploadFiles tool).
  - unfold bind. destruct (multipartParts W input st) as [st2 [parts|e]]; [|done].
    by intros [= _ <-].
  - by intros [= _ <-].
Qed.

Lemma prepareRequest_shape W c tool input st st1 req :
  prepareRequest W c tool input st = (st1, Ok req) ->
  invocationRequest W c tool req.
Proof.
  unfold prepareRequest. destruct (String.eqb _ _); [done|].
  unfold bind at 1.
  destruct (prepareBody W tool input st) as [st2 [prepared|e]] eqn:Hbody; [|done].
  apply prepareBody_content_type in Hbody.
  unfold buildRequest, bind, wrap, http_NewRequest.
  destruct (NewRequest_error W _ _); [done|]. simpl.
  intros [= _ <-]. rewrite Hbody. unfold invocationRequest, Header_Set. simpl.
  change (canonical true "X-API-KEY") with "X-Api-Key".
  change (canonical true "Accept") with "Accept".
  change (canonical true "Content-Type") with "Content-Type".
  repeat split.
Qed.

(** X13. An invocation hands the HTTP client at most one request; the one
    it sends is a POST to the endpoint selected by the upload flag, with
    the API key, [Accept: application/json] and the content type of the
    chosen encoding. *)
Theorem invocation_sends_at_most_one_POST W c tool input st :
  sent (ExecuteToolRequest W c tool input st).1 = sent st
  ∨ ∃ req, sent (ExecuteToolRequest W c tool input st).1 = (sent st ++ [req])%list
           ∧ invocationRequest W c tool req.
Proof.
  destruct (prepareRequest W c tool input (set_deferred [] st)) as [st1 [req|e]] eqn:Hprep.
  - right. exists req. split.
    + exact (ExecuteToolRequest_prepared _ _ _ _ _ _ _ Hprep).
    + exact (prepareRequest_shape _ _ _ _ _ _ _ Hprep).
  - left. exact (proj2 (ExecuteToolRequest_not_prepared _ _ _ _ _ _ _ Hprep)).
Qed.

Lemma next_fd_close_all ds : ∀ st,
  next_fd (fold_left (fun s n => close_fd n s) ds st) = next_fd st.
Proof. induction ds as [|d ds IH]; intros st; simpl; [done|]. by rewrite IH. Qed.

Lemma next_fd_func {A} (body : M A) st :
  next_fd (func body st).1 = next_fd (body (set_deferred [] st)).1.
Proof.
  unfold func. destruct (body _) as [st' r]. simpl. apply next_fd_close_all.
Qed.

(** X14. When the arguments of an upload-capable tool decode into a map in
    which the reserved field is absent or is not a list, the form that is
    sent holds the JSON field alone, and no file is opened. *)
Theorem upload_without_a_file_list_sends_the_json_field_alone
    W c tool input st inputData :
  AllowUploadFiles tool = true ->
  Form (InvokeEndpoints tool) ≠ "" ->
  unmarshal_with (into_map (float_ok W) (Some ∅)) input = Ok inputData ->
  filePathsOf inputData = None ->
  NewRequest_error W "POST" (Form (InvokeEndpoints tool)) = None ->
  ∃ req, sent (ExecuteToolRequest W c tool input st).1 = (sent st ++ [req])%list
         ∧ Body req = render W [WriteField FormDataKeyJson input]
         ∧ next_fd (ExecuteToolRequest W c tool input st).1 = next_fd st.
Proof.
  intros Hup Hform Hdec Hnone Hnew.
  assert (Hprep : ∃ req, prepareRequest W c tool input (set_deferred [] st)
                         = (set_deferred [] st, Ok req)
                         ∧ Body req = render W [WriteField FormDataKeyJson input]).
  { unfold prepareRequest, selectEndpoint, prepareBody, multipartParts.
    rewrite Hup, Hdec, Hnone. apply String.eqb_neq in Hform. rewrite Hform.
    unfold bind, ret, buildRequest, bind, wrap, http_NewRequest. simpl.
    rewrite Hnew. simpl. by eexists. }
  destruct Hprep as (req & Hprep & Hbody).
  exists req. split; [exact (ExecuteToolRequest_prepared _ _ _ _ _ _ _ Hprep)|].
  split; [done|].
  unfold ExecuteToolRequest. rewrite next_fd_func. unfold bind. rewrite Hprep.
  by destruct (roundTrip_handles W req (set_deferred [] st)) as (_ & _ & ->).
Qed.

Lemma upload_without_a_file_list_sends_the_json_field_alone_witness :
  let W := Stub.world (Stub.answers 200 (dq "{'isSuccess':true}")) in
  let input := dq "{'_uploaded_file_paths':'./testfile.txt'}" in
  ∃ req, sent (ExecuteToolRequest W Stub.client Stub.uploadTool input Sys0).1 = [req]
         ∧ Body req = render W [WriteField FormDataKeyJson input]
         ∧ next_fd (ExecuteToolRequest W Stub.client Stub.uploadTool input Sys0).1 = 3.
Proof.
  intros W input.
  refine (upload_without_a_file_list_sends_the_json_field_alone W Stub.client
            Stub.uploadTool input Sys0
            (Some (<["_uploaded_file_paths" := VStr "./testfile.txt"]> ∅))
            eq_refl _ _ _ eq_refl).
  - discriminate.
  - vm_compute; reflexivity.
  - vm_compute; reflexivity.
Defined.

(** X15. When the HTTP client fails (no connection, timeout), the
    invocation fails with the client's error as the cause; the request
    counts as sent, and it is not sent again. *)
Theorem transport_failure_fails_the_invocation W c tool input st st1 req msg :
  prepareRequest W c tool input (set_deferred [] st) = (st1, Ok req) ->
  Do W req = Err msg ->
  (ExecuteToolRequest W c tool input st).2 = Err (ErrExecuteRequest (LibError msg))
  ∧ sent (ExecuteToolRequest W c tool input st).1 = (sent st ++ [req])%list.
Proof.
  intros Hprep Hdo. split; [|exact (ExecuteToolRequest_prepared _ _ _ _ _ _ _ Hprep)].
  unfold ExecuteToolRequest. rewrite snd_func. unfold bind at 1. rewrite Hprep.
  unfold roundTrip, bind, wrap, client_Do. by rewrite Hdo.
Qed.

Lemma transport_failure_fails_the_invocation_witness :
  let W := Stub.world Stub.unreachable in
  (ExecuteToolRequest W Stub.client Stub.jsonTool "{}" Sys0).2
  = Err (ErrExecuteRequest (LibError "connection refused"))
  ∧ sent (ExecuteToolRequest W Stub.client Stub.jsonTool "{}" Sys0).1
    = [Stub.jsonRequest "{}"].
Proof.
  intros W.
  refine (transport_failure_fails_the_invocation W Stub.client Stub.jsonTool "{}" Sys0
            Sys0 (Stub.jsonRequest "{}") "connection refused" _ eq_refl).
  vm_compute; reflexivity.
Defined.

(** X16. The body is read before the status is looked at: when reading it
    fails, the invocation reports the read failure, whatever the status of
    the response. *)
Theorem unreadable_body_fails_before_the_status_check W c tool input st resp msg :
  responds W c tool input st resp ->
  ReadAll resp = Err msg ->
  (ExecuteToolRequest W c tool input st).2 = Err (ErrReadBody (LibError msg)).
Proof.
  intros (st1 & req & Hprep & Hdo) Hread.
  unfold ExecuteToolRequest. rewrite snd_func. unfold bind at 1. rewrite Hprep.
  unfold roundTrip, bind, wrap, client_Do, io_ReadAll, fail. by rewrite Hdo, Hread.
Qed.

Lemma unreadable_body_fails_before_the_status_check_witness :
  let resp := {| StatusCode := 500; ReadAll := Err "unexpected EOF" |} in
  let W := Stub.world (fun _ => Ok resp) in
  (ExecuteToolRequest W Stub.client Stub.jsonTool "{}" Sys0).2
  = Err (ErrReadBody (LibError "unexpected EOF")).
Proof.
  intros resp W.
  refine (unreadable_body_fails_before_the_status_check W Stub.client Stub.jsonTool "{}"
            Sys0 resp "unexpected EOF" _ eq_refl).
  exists Sys0, (Stub.jsonRequest "{}"). split; [vm_compute; reflexivity | reflexivity].
Defined.

(** X17. On a tool without uploads the current client does what the
    earlier client does on the same tool with the JSON endpoint as its
    single endpoint: same result, same state, same request. *)
Theorem current_client_agrees_with_the_earlier_one W c tool input st :
  AllowUploadFiles tool = false ->
  ExecuteToolRequest W c tool input st
  = Legacy.ExecuteToolRequest W c (legacyOf tool) input st.
Proof.
  intros Hup.
  unfold ExecuteToolRequest, Legacy.ExecuteToolRequest, func, legacyOf. simpl.
  unfold prepareRequest, selectEndpoint, prepareBody. rewrite Hup.
  unfold bind at 1.
  destruct (String.eqb (Json (InvokeEndpoints tool)) ""); [done|].
  unfold bind at 1. unfold ret at 1. simpl.
  unfold buildRequest, bind, wrap, http_NewRequest.
  by destruct (NewRequest_error W "POST" (Json (InvokeEndpoints tool))).
Qed.

Lemma current_client_agrees_with_the_earlier_one_witness :
  let W := Stub.world (Stub.answers 200 (dq "{'isSuccess':true,'data':[1]}")) in
  (Legacy.ExecuteToolRequest W Stub.client (legacyOf Stub.jsonTool) "{}" Sys0).2 = Ok "[1]".
Proof.
  intros W.
  rewrite <- (current_client_agrees_with_the_earlier_one W Stub.client Stub.jsonTool "{}"
                Sys0 eq_refl).
  vm_compute; reflexivity.
Defined.

(** ** The handler *)

Lemma handler_state W c tool arguments st :
  (handler W c tool arguments st).1 =
    match Marshal W arguments with
    | Err _ => st
    | Ok argsJSON => (ExecuteToolRequest W c tool argsJSON st).1
    end.
Proof.
  unfold handler. destruct (Marshal W arguments) as [argsJSON|msg]; [|done].
  destruct (ExecuteToolRequest W c tool argsJSON st) as [st' [responseJSON|err]]; [|done].
  destruct (unmarshal_with _ responseJSON) as [obj|e]; [|done].
  by destruct (MarshalIndent W obj).
Qed.

(** X18. Calling a tool whose selected endpoint is empty gives an error
    result that names the tool, and contacts nobody. *)
Theorem handler_reports_a_tool_without_endpoint W c tool arguments st argsJSON :
  Marshal W arguments = Ok argsJSON ->
  selectEndpoint tool = "" ->
  (handler W c tool arguments st).2
  = (NewToolResultError
       ("Tool execution failed: tool " ++ Name tool ++ " has no invoke endpoint"), None)
  ∧ sent (handler W c tool arguments st).1 = sent st.
Proof.
  intros Hm He.
  destruct (no_endpoint_is_a_call_time_error W c tool argsJSON st He) as [Hr Hs].
  split.
  - unfold handler. rewrite Hm.
    destruct (ExecuteToolRequest W c tool argsJSON st) as [st' r]. simpl in Hr. by subst r.
  - by rewrite handler_state, Hm.
Qed.

Lemma handler_reports_a_tool_without_endpoint_witness :
  let W := Stub.world (Stub.answers 200 "{}") in
  (handler W Stub.client Stub.orphan (VObj ∅) Sys0).2
  = (NewToolResultError "Tool execution failed: tool orphan has no invoke endpoint", None)
  ∧ sent (handler W Stub.client Stub.orphan (VObj ∅) Sys0).1 = [].
Proof.
  intros W.
  exact (handler_reports_a_tool_without_endpoint W Stub.client Stub.orphan (VObj ∅) Sys0
           "{}" eq_refl eq_refl).
Defined.

(** X19. A call of a tool sends at most one request, a POST to the tool's
    selected endpoint with the API key, and leaves no file handle open. *)
Theorem handler_sends_at_most_one_request_and_leaks_no_handle W c tool arguments st :
  (sent (handler W c tool arguments st).1 = sent st
   ∨ ∃ req, sent (handler W c tool arguments st).1 = (sent st ++ [req])%list
            ∧ invocationRequest W c tool req)
  ∧ open_fds (handler W c tool arguments st).1 = open_fds st.
Proof.
  rewrite handler_state.
  destruct (Marshal W arguments) as [argsJSON|msg]; [|by split; [left|]].
  split.
  - destruct (prepareRequest W c tool argsJSON (set_deferred [] st)) as [st1 [req|e]] eqn:Hprep.
    + right. exists req. split.
      * exact (ExecuteToolRequest_prepared _ _ _ _ _ _ _ Hprep).
      * exact (prepareRequest_shape _ _ _ _ _ _ _ Hprep).
    + left. exact (proj2 (ExecuteToolRequest_not_prepared _ _ _ _ _ _ _ Hprep)).
  - unfold ExecuteToolRequest.
    destruct (invocation_body_handles W c tool argsJSON (set_deferred [] st))
      as (ds & Hd & Ho).
    simpl in Hd, Ho. rewrite app_nil_r in Hd.
    exact (proj1 (func_releases _ st ds Hd Ho)).
Qed.

(** ** [DetectMime], once more *)

Lemma length_append (s1 s2 : string) :
  String.length (s1 ++ s2) = String.length s1 + String.length s2.
Proof. induction s1 as [|c s1 IH]; simpl; [done|]. by rewrite IH. Qed.

Lemma length_substring_0 n : ∀ s : string,
  String.length (substring 0 n s) = Nat.min n (String.length s).
Proof.
  induction n as [|n IH]; intros s; destruct s as [|c s]; simpl; try done.
  by rewrite IH.
Qed.

Lemma length_zeros n : String.length (zeros n) = n.
Proof. unfold zeros. induction n as [|n IH]; simpl; [done|]. by rewrite IH. Qed.

(** X20. For a regular file of at least one byte, the classifier is given
    exactly 512 bytes: the first bytes of the file (all of them when the
    file is shorter than 512 bytes) followed by zero bytes up to 512. *)
Theorem DetectMime_classifies_512_bytes W filePath st content :
  files W filePath = Regular content ->
  content ≠ "" ->
  ∃ buffer,
    (DetectMime W filePath st).2 = Ok (DetectContentType W buffer)
    ∧ buffer = substring 0 512 content ++ zeros (512 - String.length content)
    ∧ String.length buffer = 512.
Proof.
  intros Hf Hne. destruct content as [|ch content]; [done|].
  eexists. split; [exact (DetectMime_classifies_the_buffer W filePath st _ _ Hf)|].
  split; [done|].
  rewrite length_append, length_substring_0, length_zeros. lia.
Qed.

Lemma DetectMime_classifies_512_bytes_witness :
  let W := Stub.world Stub.unreachable in
  ∃ buffer,
    (DetectMime W "./testfile.txt" Sys0).2 = Ok (DetectContentType W buffer)
    ∧ buffer = substring 0 512 "hello" ++ zeros (512 - String.length "hello")
    ∧ String.length buffer = 512.
Proof.
  intros W.
  exact (DetectMime_classifies_512_bytes W "./testfile.txt" Sys0 "hello" eq_refl
           ltac:(discriminate)).
Defined.

(** ** The file name of a part *)

(** X21. Escaping a file name loses nothing and leaves no quote that
    could end the quoted header value: undoing the escapes gives the name
    back, and in the escaped name every quote follows a backslash that
    escapes it. *)
Theorem quoteEscaper_is_lossless_and_closes_no_quote (s : string) :
  unescapeQuotes (quoteEscaper s) = s ∧ hasBareQuote (quoteEscaper s) = false.
Proof.
  induction s as [|c s [IH1 IH2]]; [done|]. simpl.
  destruct (Ascii.eqb_spec c "\") as [->|Hb]; simpl.
  - by rewrite IH1, IH2.
  - destruct (Ascii.eqb_spec c dquote) as [->|Hq]; simpl.
    + by rewrite IH1, IH2.
    + apply Ascii.eqb_neq in Hb, Hq. by rewrite Hb, ?Hq, IH1, IH2.
Qed.

Lemma takeWhile_all {A} (f : A -> bool) (l : list A) : forallb f (takeWhile f l) = true.
Proof.
  induction l as [|x l IH]; simpl; [done|].
  destruct (f x) eqn:Hx; simpl; [by rewrite Hx|done].
Qed.

Lemma existsb_rev {A} (f : A -> bool) (l : list A) : existsb f (rev l) = existsb f l.
Proof.
  induction l as [|x l IH]; simpl; [done|].
  rewrite existsb_app, IH. simpl. rewrite orb_false_r. apply orb_comm.
Qed.

Lemma forallb_negb_existsb {A} (f : A -> bool) (l : list A) :
  forallb (fun x => negb (f x)) l = true -> existsb f l = false.
Proof.
  induction l as [|x l IH]; simpl; [done|].
  intros H. apply andb_true_iff in H as [Hx Hl].
  apply negb_true_iff in Hx. by rewrite Hx, IH.
Qed.

(** X22. The file name written for a path is never empty and holds no
    separator, so no directory of the local path is sent, unless the path
    is made of separators only, in which case the name is ["/"]. *)
Theorem base_name_has_no_separator (p : string) :
  filepath_Base p ≠ ""
  ∧ (filepath_Base p = "/" ∨ hasSeparator (filepath_Base p) = false).
Proof.
  unfold filepath_Base. destruct p as [|c p]; [by split; [|right]|].
  set (stripped := dropWhile isSep (rev (list_ascii_of_string (String c p)))).
  destruct (rev (takeWhile (fun c0 => negb (isSep c0)) stripped)) as [|x l] eqn:Hlast;
    [by split; [|left]|].
  split; [done|]. right.
  unfold hasSeparator. rewrite list_ascii_of_string_of_list_ascii, <- Hlast, existsb_rev.
  apply forallb_negb_existsb, takeWhile_all.
Qed.

(** ** The command *)

(** X23. [main] calls [server.Start()] only with both flags non-empty and
    a server that [NewServer] built; in every other case the process exits
    with status 1, and when a flag is empty it does so before any request
    is made. *)
Theorem main_starts_only_a_built_server W endpointURL apiKey st :
  (endpointURL = "" ∨ apiKey = "" ->
   Main.main W endpointURL apiKey st
   = (st, Main.Exit 1 "Error: Both endpoint URL and API key are required"))
  ∧ (∀ server, (Main.main W endpointURL apiKey st).2 = Main.Start server ->
               endpointURL ≠ "" ∧ apiKey ≠ ""
               ∧ (NewServer W endpointURL apiKey st).2 = Ok server)
  ∧ (∀ status line, (Main.main W endpointURL apiKey st).2 = Main.Exit status line ->
                    status = 1%Z)
  ∧ (∀ err, endpointURL ≠ "" -> apiKey ≠ "" ->
            (NewServer W endpointURL apiKey st).2 = Err err ->
            (Main.main W endpointURL apiKey st).2
            = Main.Exit 1 ("Failed to create MCP asgard-mcp-server: " ++ Error err)).
Proof.
  unfold Main.main.
  destruct (String.eqb_spec endpointURL "") as [He|He]; simpl.
  - split; [done|]. split; [done|]. split; [by intros ? ? [= <-]|]. done.
  - destruct (String.eqb_spec apiKey "") as [Hk|Hk]; simpl.
    + split; [done|]. split; [done|]. split; [by intros ? ? [= <-]|]. done.
    + split; [by intros [?|?]|].
      destruct (NewServer W endpointURL apiKey st) as [st' [server|err]]; simpl.
      * split; [by intros ? [= <-]|]. split; [done|]. done.
      * split; [done|]. split; [by intros ? ? [= <-]|]. by intros ? _ _ [= <-].
Qed.

Lemma main_starts_only_a_built_server_witness :
  let W := Stub.world Stub.unreachable in
  Main.main W "http://stub/manifest" "" Sys0
  = (Sys0, Main.Exit 1 "Error: Both endpoint URL and API key are required")
  ∧ (Main.main W "http://stub/manifest" "secret" Sys0).2
    = Main.Exit 1 ("Failed to create MCP asgard-mcp-server: failed to fetch toolset "
                   ++ "manifest: failed to execute request: connection refused").
Proof.
  intros W. split.
  - exact (proj1 (main_starts_only_a_built_server W "http://stub/manifest" "" Sys0)
             (or_intror eq_refl)).
  - exact (proj2 (proj2 (proj2 (main_starts_only_a_built_server W "http://stub/manifest"
                                  "secret" Sys0)))
             _ ltac:(discriminate) ltac:(discriminate) eq_refl).
Defined.

(** ** The handler, end to end *)

(** X24. A call ends in a text result exactly when the arguments marshal,
    the invocation returns a result, that result is JSON, and it can be
    rendered; the text is then the rendering of the decoded result. *)
Theorem handler_succeeds_iff W c tool arguments st :
  IsError (handler W c tool arguments st).2.1 = false
  ↔ ∃ argsJSON responseJSON responseObj responseText,
      Marshal W arguments = Ok argsJSON
      ∧ (ExecuteToolRequest W c tool argsJSON st).2 = Ok responseJSON
      ∧ unmarshal_with (into_any (float_ok W)) responseJSON = Ok responseObj
      ∧ MarshalIndent W responseObj = Ok responseText
      ∧ (handler W c tool arguments st).2 = (NewToolResultText responseText, None).
Proof.
  unfold handler. split.
  - destruct (Marshal W arguments) as [argsJSON|msg] eqn:Hm; [|done].
    destruct (ExecuteToolRequest W c tool argsJSON st) as [st' [responseJSON|err]] eqn:Hex;
      [|done].
    destruct (unmarshal_with _ responseJSON) as [obj|e] eqn:Hp; [|done].
    destruct (MarshalIndent W obj) as [text|msg] eqn:Hi; [|done].
    intros _. exists argsJSON, responseJSON, obj, text. by rewrite Hex.
  - intros (argsJSON & responseJSON & obj & text & -> & Hex & Hp & Hi & Hres).
    destruct (ExecuteToolRequest W c tool argsJSON st) as [st' r]. simpl in Hex. subst r.
    by rewrite Hp, Hi.
Qed.

(** X25. The error string of a remote failure reaches the caller: when
    the endpoint answers 200 with an envelope whose success flag is not
    true, the call ends in an error result that quotes the envelope's error
    string, or "unknown error" when it has none. *)
Theorem handler_relays_the_remote_error W c tool arguments st argsJSON resp body env :
  Marshal W arguments = Ok argsJSON ->
  responds W c tool argsJSON st resp ->
  StatusCode resp = StatusOK ->
  ReadAll resp = Ok body ->
  AsgardResponse.Unmarshal body = Ok env ->
  AsgardResponse.IsSuccess env = false ->
  (handler W c tool arguments st).2
  = (NewToolResultError
       ("Tool execution failed: API error: "
        ++ default "unknown error" (AsgardResponse.Error env)), None).
Proof.
  intros Hm Hresp Hst Hread Hdec Hflag.
  pose proof (ExecuteToolRequest_after_response _ _ _ _ _ _ _ Hresp Hread) as Hex.
  rewrite Hst in Hex. simpl in Hex. unfold unwrapEnvelope in Hex.
  rewrite Hdec, Hflag in Hex. simpl in Hex.
  unfold handler. rewrite Hm.
  destruct (ExecuteToolRequest W c tool argsJSON st) as [st' r]. simpl in Hex. by subst r.
Qed.

Lemma handler_relays_the_remote_error_witness :
  let body := dq "{'isSuccess':false,'error':'bad input'}" in
  let W := Stub.world (Stub.answers 200 body) in
  (handler W Stub.client Stub.jsonTool (VObj ∅) Sys0).2
  = (NewToolResultError "Tool execution failed: API error: bad input", None).
Proof.
  intros body W.
  refine (handler_relays_the_remote_error W Stub.client Stub.jsonTool (VObj ∅) Sys0 "{}"
            {| StatusCode := 200; ReadAll := Ok body |} body
            {| AsgardResponse.IsSuccess := false; AsgardResponse.Data := None;
               AsgardResponse.Error := Some "bad input";
               AsgardResponse.ErrorCode := None |}
            eq_refl _ eq_refl eq_refl _ eq_refl).
  - exists Sys0, (Stub.jsonRequest "{}"). split; [vm_compute; reflexivity | reflexivity].
  - vm_compute; reflexivity.
Defined.

(** X26. [DetectMime] releases the handle it opens on every return, with
    or without an error: afterwards the open handles, the deferred calls
    of the caller and the requests sent are what they were, and at most one
    descriptor was used. *)
Theorem DetectMime_leaves_no_handle_open W filePath st :
  open_fds (DetectMime W filePath st).1 = open_fds st
  ∧ deferred (DetectMime W filePath st).1 = deferred st
  ∧ sent (DetectMime W filePath st).1 = sent st
  ∧ next_fd st <= next_fd (DetectMime W filePath st).1 <= S (next_fd st).
Proof.
  rewrite DetectMime_run. simpl.
  destruct (files W filePath); simpl; repeat split; lia.
Qed.
